(** * Organiser and team administration views (pretalx/orga/views/organiser.py)

    A shallow embedding of the view classes of [organiser.py]: the request,
    the rows the views read and write, the flash messages and the calls to
    the collaborators (forms, model methods, the invariant checker) are
    explicit state; Python exceptions are an error result that keeps the
    state reached when the exception was raised. *)

From Stdlib Require Import ZArith List String Ascii Bool Lia.
Import ListNotations.
Open Scope string_scope.
Open Scope Z_scope.

(** ** Data model *)

(** [request.organiser]; [orga_urls_base] is [organiser.orga_urls.base]. *)
Record Organiser := {
  organiser_pk : Z;
  organiser_slug : string;
  orga_urls_base : string
}.

Record User := {
  user_pk : Z;
  user_name : string
}.

(** A row of [Team]; [team_organiser] is the foreign key to its organiser,
    [team_can_change_teams] one of its permission flags and
    [team_orga_urls_base] is [team.orga_urls.base]. *)
Record Team := {
  team_pk : Z;
  team_organiser : Z;
  team_name : string;
  team_can_change_teams : bool;
  team_orga_urls_base : string
}.

Record TeamInvite := {
  invite_pk : Z;
  invite_team : Z;
  invite_email : string
}.

(** allauth's [SocialApp]; only the [provider] column is read here. *)
Record SocialApp := {
  app_pk : Z;
  app_provider : string
}.

(** The tables the views touch.  [tbl_members] is the many-to-many table
    between [Team] and [User], as pairs (team pk, user pk). *)
Record DB := {
  tbl_teams : list Team;
  tbl_members : list (Z * Z);
  tbl_users : list User;
  tbl_invites : list TeamInvite;
  tbl_social_apps : list SocialApp
}.

(** ** Exceptions, messages, responses *)

(** The classes of exception the views raise or catch.  All of them derive
    from Python's [Exception]. *)
Inductive ExcClass :=
| Http404
| Forbidden
| DoesNotExist
| MultipleObjectsReturned
| SendMailException
| AttributeError
| KeyError
| RecursionError
| OtherException.

(** An exception object: its class and [str(e)]. *)
Record Exc := {
  exc_class : ExcClass;
  exc_str : string
}.

Definition ExcClass_eqb (a b : ExcClass) : bool :=
  match a, b with
  | Http404, Http404 | Forbidden, Forbidden | DoesNotExist, DoesNotExist
  | MultipleObjectsReturned, MultipleObjectsReturned
  | SendMailException, SendMailException
  | AttributeError, AttributeError | KeyError, KeyError
  | RecursionError, RecursionError
  | OtherException, OtherException => true
  | _, _ => false
  end.

Inductive Level := LSuccess | LWarning | LError.

(** One call of [messages.success], [messages.warning] or [messages.error]. *)
Record Message := {
  msg_level : Level;
  msg_text : string
}.

(** [redirect(url)] / [HttpResponseRedirect(url)], or a rendered page. *)
Inductive Response :=
| Redirect (url : string)
| Render (template : string).

Inductive Method := GET | POST.

(** URL keyword arguments [self.kwargs]: the three keys the views look up. *)
Record Kwargs := {
  kw_pk : option Z;
  kw_user_pk : option Z;
  kw_organiser : option string
}.

(** The parts of the request the views read.  [req_POST_form] is
    [request.POST.get("form")], [req_POST] the submitted fields,
    [req_GET_next] is [request.GET.get("next")]. *)
Record Request := {
  req_method : Method;
  req_path : string;
  req_user : User;
  req_organiser : Organiser;
  req_kwargs : Kwargs;
  req_POST_form : option string;
  req_POST : list (string * string);
  req_GET_next : option string
}.

(** The object a permission is evaluated against. *)
Inductive PermObject :=
| PermOrganiser (o : Organiser)
| PermTeam (t : Team)
| PermNone.

(** [form.errors]: field name to its list of error strings, in order. *)
Definition ErrorDict := list (string * list string).

(** A bound [TeamForm]: the instance it edits ([None] for a new team) and
    the submitted data. *)
Record TeamForm := {
  form_instance : option Team;
  form_data : list (string * string)
}.

(** [SSOClientForm(provider_id=..., data=...)]; [sso_data] is [None] for an
    unbound form. *)
Record SSOClientForm := {
  sso_provider_id : option string;
  sso_data : option (list (string * string))
}.

(** A Python value a view resolves as its object: a model instance or
    [None]. *)
Inductive PyObj :=
| ObjTeam (t : Team)
| ObjUser (u : User)
| ObjInvite (i : TeamInvite)
| ObjSocialApp (a : SocialApp)
| ObjNone.

(** ** Calls to collaborators, as observed by the request *)

Inductive Event :=
| TxBegin
| TxCommit
| TxRollback
| EvTeamFormSave (instance : option Z)
| EvCheckAccess (organiser : Z)
| EvMembersRemove (team : Z) (obj : PyObj)
| EvDelete (obj : PyObj)
| EvInviteFormSave (team : option Z)
| EvInviteSend (invite : Z)
| EvResetPassword (user : Z)
| EvSSOClientSave (provider : option string)
| EvOrganiserFormSave (organiser : Z)
| EvShred (organiser : Z)
| EvLoggerError (text : string).

(** The state of one request: the database, the queued flash messages and
    the calls made so far, oldest first. *)
Record World := {
  db : DB;
  messages : list Message;
  log : list Event
}.

Definition set_db (d : DB) (w : World) : World :=
  {| db := d; messages := messages w; log := log w |}.

Definition add_message (m : Message) (w : World) : World :=
  {| db := db w; messages := messages w ++ [m]; log := log w |}.

Definition add_event (ev : Event) (w : World) : World :=
  {| db := db w; messages := messages w; log := log w ++ [ev] |}.

(** ** The monad of view code: state with exceptions *)

Inductive result (A : Type) :=
| Ok (a : A)
| Raise (e : Exc).
Arguments Ok {A} a.
Arguments Raise {A} e.

Definition M (A : Type) : Type := World -> result A * World.

Definition ret {A} (a : A) : M A := fun w => (Ok a, w).

Definition bind {A B} (m : M A) (k : A -> M B) : M B :=
  fun w =>
    match m w with
    | (Ok a, w') => k a w'
    | (Raise e, w') => (Raise e, w')
    end.

Definition raise {A} (e : Exc) : M A := fun w => (Raise e, w).

Declare Scope view_scope.
Delimit Scope view_scope with view.
Notation "x <- m ;; k" := (bind m (fun x => k))
  (at level 100, m at next level, right associativity) : view_scope.
Notation "m ;; k" := (bind m (fun _ => k))
  (at level 100, right associativity) : view_scope.
Open Scope view_scope.

(** [try: body  except Exception as e: handler(e)]. *)
Definition try_except {A} (body : M A) (handler : Exc -> M A) : M A :=
  fun w =>
    match body w with
    | (Ok a, w') => (Ok a, w')
    | (Raise e, w') => handler e w'
    end.

(** [try: body  except cls: handler]: other classes propagate. *)
Definition try_except_class {A} (cls : ExcClass) (body : M A)
    (handler : Exc -> M A) : M A :=
  fun w =>
    match body w with
    | (Ok a, w') => (Ok a, w')
    | (Raise e, w') =>
        if ExcClass_eqb (exc_class e) cls then handler e w' else (Raise e, w')
    end.

(** [with transaction.atomic(): body].  Leaving the block normally commits;
    leaving it by an exception restores the database of the moment the
    block was entered and re-raises.  Messages are not database rows of
    the transaction and stay. *)
Definition atomic {A} (body : M A) : M A :=
  fun w =>
    match body (add_event TxBegin w) with
    | (Ok a, w') => (Ok a, add_event TxCommit w')
    | (Raise e, w') => (Raise e, add_event TxRollback (set_db (db w) w'))
    end.

(** A read of the database. *)
Definition query {A} (f : DB -> result A) : M A :=
  fun w => (f (db w), w).

(** A call to a collaborator that may write: the call is logged when it is
    made, and the database it leaves behind is kept also when it raises. *)
Definition call {A} (ev : Event) (f : DB -> result A * DB) : M A :=
  fun w =>
    let w1 := add_event ev w in
    let '(r, d) := f (db w1) in (r, set_db d w1).

Definition messages_success (text : string) : M unit :=
  fun w => (Ok tt, add_message {| msg_level := LSuccess; msg_text := text |} w).

Definition messages_warning (text : string) : M unit :=
  fun w => (Ok tt, add_message {| msg_level := LWarning; msg_text := text |} w).

Definition messages_error (text : string) : M unit :=
  fun w => (Ok tt, add_message {| msg_level := LError; msg_text := text |} w).

(** [for x in xs: body(x)]. *)
Fixpoint for_each {A} (xs : list A) (body : A -> M unit) : M unit :=
  match xs with
  | [] => ret tt
  | x :: rest => body x ;; for_each rest body
  end.

Definition redirect (url : string) : M Response := ret (Redirect url).

(** ** Collaborators

    What [organiser.py] imports and calls but does not define: the
    permission predicate, the forms, the model methods, the invariant
    checker and the phrases.  Each writing call gets the database and
    returns its result with the database it leaves behind. *)
Class Collaborators := {
  (** [user.has_perm(permission, obj)]. *)
  has_perm : User -> string -> PermObject -> DB -> bool;
  (** [pretalx.event.models.organiser.check_access_permissions]. *)
  check_access_permissions_impl : Organiser -> DB -> result (list string) * DB;
  (** [TeamForm]: [errors], [has_changed()], [save()]. *)
  TeamForm_errors : TeamForm -> DB -> ErrorDict;
  TeamForm_has_changed : TeamForm -> bool;
  TeamForm_save : TeamForm -> DB -> result unit * DB;
  (** [TeamInviteForm]: [errors] and [save(team=...)]. *)
  TeamInviteForm_errors : list (string * string) -> DB -> ErrorDict;
  TeamInviteForm_save :
    option Team -> list (string * string) -> DB -> result (list TeamInvite) * DB;
  (** [team.members.remove(obj)]. *)
  members_remove : Team -> PyObj -> DB -> result unit * DB;
  (** [obj.delete()] on a model instance. *)
  Model_delete : PyObj -> DB -> result unit * DB;
  (** [invite.send()]. *)
  TeamInvite_send : TeamInvite -> DB -> result unit * DB;
  (** [user.reset_password(event=None, user=request.user)]. *)
  User_reset_password : User -> User -> DB -> result unit * DB;
  (** [pretalx.common.views.is_form_bound]. *)
  is_form_bound : Request -> string -> result bool;
  (** [SSOClientForm]: [errors] and [save(organiser=...)]. *)
  SSOClientForm_errors : SSOClientForm -> DB -> ErrorDict;
  SSOClientForm_save : SSOClientForm -> option string -> DB -> result unit * DB;
  (** [OrganiserForm]: [errors] and [save()]. *)
  OrganiserForm_errors : Organiser -> list (string * string) -> DB -> ErrorDict;
  OrganiserForm_save : Organiser -> list (string * string) -> DB -> result unit * DB;
  (** [organiser.shred(person=...)]. *)
  Organiser_shred : Organiser -> User -> DB -> result unit * DB;
  (** [self.get(request, ...)] and [form_invalid]: rendering the page. *)
  view_get : Request -> DB -> result Response;
  (** [phrases.orga.password_reset_success] and [password_reset_fail]. *)
  phrase_password_reset_success : string;
  phrase_password_reset_fail : string;
  (** [reverse("orga:event.list")]. *)
  url_event_list : string
}.

(** ** Querysets *)

(** [organiser.teams.all()]. *)
Definition organiser_teams (o : Organiser) (d : DB) : list Team :=
  filter (fun t => team_organiser t =? organiser_pk o) (tbl_teams d).

(** [team.invites.all()]. *)
Definition team_invites (t : Team) (d : DB) : list TeamInvite :=
  filter (fun i => invite_team i =? team_pk t) (tbl_invites d).

(** [team.members.all()]. *)
Definition team_members (t : Team) (d : DB) : list User :=
  filter
    (fun u =>
       existsb (fun '(tp, up) => (tp =? team_pk t) && (up =? user_pk u))
               (tbl_members d))
    (tbl_users d).

Definition http404 : Exc := {| exc_class := Http404; exc_str := "Not found" |}.

Definition attribute_error : Exc :=
  {| exc_class := AttributeError;
     exc_str := "'NoneType' object has no attribute" |}.

Definition key_error (k : string) : Exc :=
  {| exc_class := KeyError; exc_str := k |}.

(** [queryset.get(...)] on the rows that passed the filter. *)
Definition queryset_get {A} (rows : list A) : result A :=
  match rows with
  | [] => Raise {| exc_class := DoesNotExist;
                   exc_str := "matching query does not exist." |}
  | [x] => Ok x
  | _ :: _ :: _ =>
      Raise {| exc_class := MultipleObjectsReturned;
               exc_str := "get() returned more than one object" |}
  end.

(** Django's [get_object_or_404(queryset, pk=pk)]: [DoesNotExist] becomes
    [Http404]. *)
Definition get_object_or_404 {A} (pk_of : A -> Z) (rows : list A) (pk : Z)
  : result A :=
  match queryset_get (filter (fun x => pk_of x =? pk) rows) with
  | Ok x => Ok x
  | Raise e =>
      if ExcClass_eqb (exc_class e) DoesNotExist then Raise http404
      else Raise e
  end.

(** [queryset.first()]. *)
Definition queryset_first {A} (rows : list A) : option A := hd_error rows.

(** [bool(pk)] for a primary key that may be [None]. *)
Definition pk_truthy (pk : option Z) : bool :=
  match pk with
  | Some z => negb (z =? 0)
  | None => false
  end.

(** [form.is_valid()] of a bound form: no errors. *)
Definition errors_empty (errs : ErrorDict) : bool :=
  match errs with [] => true | _ :: _ => false end.

Definition newline : string := String (ascii_of_nat 10) EmptyString.

(** [check_access_permissions(organiser)]. *)
Definition check_access_permissions `{Collaborators} (o : Organiser)
  : M (list string) :=
  call (EvCheckAccess (organiser_pk o)) (check_access_permissions_impl o).

(** [obj.delete()]; [None] has no such attribute. *)
Definition delete `{Collaborators} (obj : PyObj) : M unit :=
  match obj with
  | ObjNone => raise attribute_error
  | _ => call (EvDelete obj) (Model_delete obj)
  end.

(** [if warnings: for warning in warnings: messages.warning(...)]. *)
Definition report_warnings (warnings : list string) : M unit :=
  match warnings with
  | [] => ret tt
  | _ :: _ => for_each warnings messages_warning
  end.

(** ** Framework methods the views inherit *)

(** Django's [ProcessFormView.post], reached through
    [CreateOrUpdateView.post]: build the form, then [form_valid] or
    [form_invalid]. *)
Definition ProcessFormView_post {F} (get_form : M F) (is_valid : F -> M bool)
    (form_valid form_invalid : F -> M Response) : M Response :=
  form <- get_form ;;
  valid <- is_valid form ;;
  if valid then form_valid form else form_invalid form.

(** Django's [SingleObjectMixin.get_object] of a [DetailView] with
    [model = TeamInvite] and no queryset of its own: the lookup by pk runs
    over [TeamInvite.objects.all()]. *)
Definition SingleObjectMixin_get_object (req : Request) : M TeamInvite :=
  match kw_pk (req_kwargs req) with
  | None => raise attribute_error
  | Some pk =>
      query (fun d => get_object_or_404 invite_pk (tbl_invites d) pk)
  end.

(** ** class TeamMixin *)
Module TeamMixin.

Definition _get_team (req : Request) : M (option Team) :=
  match kw_pk (req_kwargs req) with
  | Some pk =>
      t <- query (fun d =>
             get_object_or_404 team_pk (organiser_teams (req_organiser req) d) pk) ;;
      ret (Some t)
  | None => ret None
  end.

Definition get_object (req : Request) : M (option Team) := _get_team req.

(** The cached properties [team] and [object]: computed on first use. *)
Definition team (req : Request) : M (option Team) := _get_team req.

Definition object (req : Request) : M (option Team) := get_object req.

End TeamMixin.

(** ** class TeamDetail *)
Module TeamDetail.
Section WithCollaborators.
Context `{Collaborators}.

Definition permission_required : string := "orga.change_teams".

Definition get_object (req : Request) : M (option Team) :=
  match kw_pk (req_kwargs req) with
  | None => ret None
  | Some _ => TeamMixin.get_object req
  end.

Definition get_permission_object (req : Request) : M PermObject :=
  match kw_pk (req_kwargs req) with
  | None => ret (PermOrganiser (req_organiser req))
  | Some _ =>
      obj <- get_object req ;;
      ret (match obj with Some t => PermTeam t | None => PermNone end)
  end.

(** [invite_form.is_bound]: the form gets [request.POST] exactly when the
    request is a POST whose [form] field is ["invite"]. *)
Definition invite_form_is_bound (req : Request) : bool :=
  match req_method req, req_POST_form req with
  | POST, Some f => String.eqb f "invite"
  | _, _ => false
  end.

Definition get_success_url (req : Request) : string :=
  match kw_pk (req_kwargs req) with
  | None => orga_urls_base (req_organiser req)
  | Some _ =>
      match req_GET_next req with
      | Some next => next
      | None => req_path req
      end
  end.

(** [super().form_valid(form)]: Django's [ModelFormMixin.form_valid]
    saves the form and redirects to [get_success_url()]. *)
Definition super_form_valid (req : Request) (form : TeamForm) : M Response :=
  call (EvTeamFormSave (option_map team_pk (form_instance form)))
       (TeamForm_save form) ;;
  redirect (get_success_url req).

(** [created = not bool(form.instance.pk)]. *)
Definition created (form : TeamForm) : bool :=
  negb (pk_truthy (option_map team_pk (form_instance form))).

(** The body of the [with transaction.atomic()] block of [form_valid];
    its value is [warnings]. *)
Definition save_body (req : Request) (form : TeamForm) : M (list string) :=
  call (EvTeamFormSave (option_map team_pk (form_instance form)))
       (TeamForm_save form) ;;
  if negb (created form)
  then check_access_permissions (req_organiser req)
  else ret [].

(** The [try] block either leaves the warnings, or its [except] branch
    returns the response of [self.get]. *)
Definition form_valid (req : Request) (form : TeamForm) : M Response :=
  outcome <-
    try_except
      (warnings <- atomic (save_body req form) ;; ret (inl warnings))
      (fun e =>
         messages_error (exc_str e) ;;
         response <- query (view_get req) ;;
         ret (inr response)) ;;
  match outcome with
  | inr response => ret response
  | inl warnings =>
      report_warnings warnings ;;
      (if created form
       then messages_success "The team has been created."
       else if TeamForm_has_changed form
            then messages_success "The settings have been saved."
            else ret tt) ;;
      super_form_valid req form
  end.

(** [CreateOrUpdateView.post]: the form is bound to [self.object] and the
    submitted data; an invalid form renders the page again. *)
Definition super_post (req : Request) : M Response :=
  ProcessFormView_post
    (obj <- get_object req ;;
     ret {| form_instance := obj; form_data := req_POST req |})
    (fun form => query (fun d => Ok (errors_empty (TeamForm_errors form d))))
    (form_valid req)
    (fun _ => query (view_get req)).

Definition post (req : Request) : M Response :=
  if invite_form_is_bound req then
    errors <- query (fun d => Ok (TeamInviteForm_errors (req_POST req) d)) ;;
    (if errors_empty errors then
       team <- TeamMixin.team req ;;
       invites <- call (EvInviteFormSave (option_map team_pk team))
                       (TeamInviteForm_save team (req_POST req)) ;;
       if Nat.eqb (List.length invites) 1
       then messages_success "The invitation has been sent."
       else messages_success "The invitations have been sent."
     else
       for_each errors
         (fun error => messages_error (String.concat newline (snd error)))) ;;
    redirect (req_path req)
  else super_post req.

End WithCollaborators.
End TeamDetail.

(** ** class TeamDelete *)
Module TeamDelete.
Section WithCollaborators.
Context `{Collaborators}.

Definition permission_required : string := "orga.change_teams".

Definition get_permission_object (req : Request) : M PermObject :=
  t <- TeamMixin._get_team req ;;
  ret (match t with Some t => PermTeam t | None => PermNone end).

(** With [user_pk] among the kwargs the object is the first member of
    the team with that pk, or [None]; otherwise it is the team. *)
Definition get_object (req : Request) : M PyObj :=
  team <- TeamMixin.get_object req ;;
  match kw_user_pk (req_kwargs req) with
  | Some user_pk' =>
      match team with
      | None => raise attribute_error
      | Some team =>
          m <- query (fun d =>
                 Ok (queryset_first
                       (filter (fun u => user_pk u =? user_pk')
                               (team_members team d)))) ;;
          ret (match m with Some u => ObjUser u | None => ObjNone end)
      end
  | None =>
      ret (match team with Some t => ObjTeam t | None => ObjNone end)
  end.

(** [obj.name] of what [get_object] returns: a team, a user or [None],
    which has no attributes. *)
Definition object_name (obj : PyObj) : M string :=
  match obj with
  | ObjTeam t => ret (team_name t)
  | ObjUser u => ret (user_name u)
  | _ => raise attribute_error
  end.

Definition action_object_name (req : Request) : M string :=
  match kw_user_pk (req_kwargs req) with
  | Some _ =>
      obj <- get_object req ;;
      name <- object_name obj ;;
      ret ("Team member" ++ ": " ++ name)
  | None =>
      obj <- get_object req ;;
      name <- object_name obj ;;
      ret ("Team" ++ ": " ++ name)
  end.

(** [a != b] on what the view resolves: model instances are equal when
    they are of the same model and have the same pk. *)
Definition obj_ne (a b : PyObj) : bool :=
  negb
    match a, b with
    | ObjTeam x, ObjTeam y => team_pk x =? team_pk y
    | ObjUser x, ObjUser y => user_pk x =? user_pk y
    | ObjInvite x, ObjInvite y => invite_pk x =? invite_pk y
    | ObjSocialApp x, ObjSocialApp y => app_pk x =? app_pk y
    | ObjNone, ObjNone => true
    | _, _ => false
    end.

(** The cached property [member]. *)
Definition member (req : Request) : M PyObj :=
  member <- get_object req ;;
  team <- TeamMixin.team req ;;
  ret (if obj_ne member
            (match team with Some t => ObjTeam t | None => ObjNone end)
       then member else ObjNone).

(** [self.team.members.remove(self.get_object())]. *)
Definition remove_member (req : Request) : M unit :=
  team <- TeamMixin.team req ;;
  match team with
  | None => raise attribute_error
  | Some team =>
      obj <- get_object req ;;
      call (EvMembersRemove (team_pk team) obj) (members_remove team obj)
  end.

(** [self.get_object().delete()]. *)
Definition delete_object (req : Request) : M unit :=
  obj <- get_object req ;;
  delete obj.

(** The mutation of a request: the first statement of the branch of
    [post] that the kwargs select. *)
Definition mutation (req : Request) : M unit :=
  match kw_user_pk (req_kwargs req) with
  | Some _ => remove_member req
  | None => delete_object req
  end.

(** The body of the [with transaction.atomic()] block of [post]; its
    value is [warnings]. *)
Definition post_body (req : Request) : M (list string) :=
  match kw_user_pk (req_kwargs req) with
  | Some _ =>
      remove_member req ;;
      warnings <- check_access_permissions (req_organiser req) ;;
      messages_success "The member was removed from the team." ;;
      ret warnings
  | None =>
      delete_object req ;;
      warnings <- check_access_permissions (req_organiser req) ;;
      messages_success "The team was removed." ;;
      ret warnings
  end.

Definition post (req : Request) : M Response :=
  outcome <-
    try_except
      (warnings <- atomic (post_body req) ;; ret (inl warnings))
      (fun e =>
         messages_error (exc_str e) ;;
         response <- query (view_get req) ;;
         ret (inr response)) ;;
  match outcome with
  | inr response => ret response
  | inl warnings =>
      report_warnings warnings ;;
      redirect (orga_urls_base (req_organiser req))
  end.

End WithCollaborators.
End TeamDelete.

(** ** class InviteMixin *)
Module InviteMixin.

Definition get_permission_object (req : Request) : M PermObject :=
  ret (PermOrganiser (req_organiser req)).

Definition recursion_error : Exc :=
  {| exc_class := RecursionError;
     exc_str := "maximum recursion depth exceeded" |}.

(** The cached properties [object] and [team] are defined through each
    other: [object] reads [self.team.invites] and [team] reads
    [self.object.team.pk].  Nothing is cached before a body returns, so
    each access enters the other body again; [depth] is what is left of
    the interpreter's recursion limit. *)
Fixpoint object (depth : nat) (req : Request) (d : DB) : result TeamInvite :=
  match depth with
  | O => Raise recursion_error
  | S depth' =>
      match team depth' req d with
      | Ok t =>
          match kw_pk (req_kwargs req) with
          | Some pk => get_object_or_404 invite_pk (team_invites t d) pk
          | None => Raise (key_error "pk")
          end
      | Raise e => Raise e
      end
  end
with team (depth : nat) (req : Request) (d : DB) : result Team :=
  match depth with
  | O => Raise recursion_error
  | S depth' =>
      match object depth' req d with
      | Ok o =>
          get_object_or_404 team_pk
            (organiser_teams (req_organiser req) d) (invite_team o)
      | Raise e => Raise e
      end
  end.

End InviteMixin.

(** ** class TeamUninvite *)
Module TeamUninvite.
Section WithCollaborators.
Context `{Collaborators}.

Definition permission_required : string := "orga.change_teams".

(** [get_object] is not defined by [InviteMixin]: it is the one of
    [DetailView]. *)
Definition get_object (req : Request) : M TeamInvite :=
  SingleObjectMixin_get_object req.

Definition post (req : Request) : M Response :=
  invite <- get_object req ;;
  delete (ObjInvite invite) ;;
  messages_success "The team invitation was retracted." ;;
  redirect (orga_urls_base (req_organiser req)).

End WithCollaborators.
End TeamUninvite.

(** ** class TeamResend *)
Module TeamResend.
Section WithCollaborators.
Context `{Collaborators}.

Definition permission_required : string := "orga.change_teams".

Definition get_object (req : Request) : M TeamInvite :=
  SingleObjectMixin_get_object req.

Definition post (req : Request) : M Response :=
  invite <- get_object req ;;
  call (EvInviteSend (invite_pk invite)) (TeamInvite_send invite) ;;
  messages_success "The team invitation was sent again." ;;
  redirect (orga_urls_base (req_organiser req)).

End WithCollaborators.
End TeamResend.

(** ** class TeamResetPassword *)
Module TeamResetPassword.
Section WithCollaborators.
Context `{Collaborators}.

Definition permission_required : string := "orga.change_teams".

Definition get_permission_object (req : Request) : M PermObject :=
  ret (PermOrganiser (req_organiser req)).

Definition team (req : Request) : M Team :=
  match kw_pk (req_kwargs req) with
  | None => raise (key_error "pk")
  | Some pk =>
      query (fun d =>
        get_object_or_404 team_pk (organiser_teams (req_organiser req) d) pk)
  end.

Definition user (req : Request) : M User :=
  t <- team req ;;
  match kw_user_pk (req_kwargs req) with
  | None => raise (key_error "user_pk")
  | Some upk =>
      query (fun d => get_object_or_404 user_pk (team_members t d) upk)
  end.

Definition post (req : Request) : M Response :=
  try_except_class SendMailException
    (u <- user req ;;
     call (EvResetPassword (user_pk u))
          (User_reset_password u (req_user req)) ;;
     messages_success phrase_password_reset_success)
    (fun _ => messages_error phrase_password_reset_fail) ;;
  redirect (orga_urls_base (req_organiser req)).

End WithCollaborators.
End TeamResetPassword.

(** ** class OrganiserDetail *)
Module OrganiserDetail.
Section WithCollaborators.
Context `{Collaborators}.

Definition permission_required : string := "orga.change_organiser_settings".

Definition get_object (req : Request) : Organiser := req_organiser req.

Definition get_success_url (req : Request) : M string :=
  messages_success "Saved!" ;;
  ret (req_path req).

Definition form_is (req : Request) (name : string) : bool :=
  match req_POST_form req with
  | Some f => String.eqb f name
  | None => false
  end.

(** The cached property [sso_client_form]; [is_form_bound] only reads the
    request, so computing it again gives the same form. *)
Definition sso_client_form (req : Request) : M SSOClientForm :=
  let organiser := kw_organiser (req_kwargs req) in
  bound <-
    (if form_is req "remove_sso_client"
     then query (fun _ => is_form_bound req "remove_sso_client")
     else query (fun _ => is_form_bound req "sso_client")) ;;
  ret {| sso_provider_id := organiser;
         sso_data := if bound then Some (req_POST req) else None |}.

(** [str()] of a kwarg that may be [None], as an f-string prints it. *)
Definition str_option (o : option string) : string :=
  match o with Some s => s | None => "None" end.

Definition save_sso_client (req : Request) : M Response :=
  outcome <-
    try_except
      (form <- sso_client_form req ;;
       call (EvSSOClientSave (kw_organiser (req_kwargs req)))
            (SSOClientForm_save form (kw_organiser (req_kwargs req))) ;;
       ret (inl tt))
      (fun e =>
         call (EvLoggerError
                 ("Error saving SSO client for organiser "
                  ++ str_option (kw_organiser (req_kwargs req))
                  ++ ": " ++ exc_str e))
              (fun d => (Ok tt, d)) ;;
         messages_error ("An error occurred: " ++ exc_str e) ;;
         response <- redirect (req_path req) ;;
         ret (inr response)) ;;
  match outcome with
  | inr response => ret response
  | inl _ => url <- get_success_url req ;; redirect url
  end.

Definition is_remove_sso_client_request (req : Request) : M bool :=
  bound <- query (fun _ => is_form_bound req "remove_sso_client") ;;
  if bound then ret (form_is req "remove_sso_client") else ret false.

(** [SocialApp.objects.get(provider=provider_id)]; a provider of [None]
    matches no row. *)
Definition SocialApp_objects_get (provider_id : option string) (d : DB)
  : result SocialApp :=
  queryset_get
    (filter
       (fun a =>
          match provider_id with
          | Some p => String.eqb (app_provider a) p
          | None => false
          end)
       (tbl_social_apps d)).

Definition handle_remove_sso_client (req : Request) : M Response :=
  let provider_id := kw_organiser (req_kwargs req) in
  try_except_class DoesNotExist
    (social_app <- query (SocialApp_objects_get provider_id) ;;
     delete (ObjSocialApp social_app))
    (fun _ => messages_error "The key does not exist.") ;;
  redirect (req_path req).

(** [form.is_valid()]: bound and without errors. *)
Definition sso_client_form_is_valid (form : SSOClientForm) : M bool :=
  match sso_data form with
  | None => ret false
  | Some _ => query (fun d => Ok (errors_empty (SSOClientForm_errors form d)))
  end.

Definition is_sso_client_request (req : Request) : M bool :=
  bound <- query (fun _ => is_form_bound req "sso_client") ;;
  if bound then
    if form_is req "sso_client" then
      form <- sso_client_form req ;;
      sso_client_form_is_valid form
    else ret false
  else ret false.

Definition handle_sso_client (req : Request) : M Response :=
  save_sso_client req.

(** [super().form_valid(form)] of the settings form: Django's
    [ModelFormMixin.form_valid]. *)
Definition form_valid (req : Request) : M Response :=
  call (EvOrganiserFormSave (organiser_pk (get_object req)))
       (OrganiserForm_save (get_object req) (req_POST req)) ;;
  url <- get_success_url req ;;
  redirect url.

(** [self.set_object()] followed by [CreateOrUpdateView.post]. *)
Definition super_post (req : Request) : M Response :=
  ProcessFormView_post
    (ret (get_object req))
    (fun o => query (fun d =>
       Ok (errors_empty (OrganiserForm_errors o (req_POST req) d))))
    (fun _ => form_valid req)
    (fun _ => query (view_get req)).

(** The body of the [try] block of [post]. *)
Definition post_body (req : Request) : M Response :=
  remove <- is_remove_sso_client_request req ;;
  if remove then handle_remove_sso_client req
  else
    sso <- is_sso_client_request req ;;
    if sso then handle_sso_client req
    else super_post req.

Definition post (req : Request) : M Response :=
  try_except
    (post_body req)
    (fun e =>
       messages_error ("An error occurred: " ++ exc_str e) ;;
       redirect (req_path req)).

End WithCollaborators.
End OrganiserDetail.

(** ** class OrganiserDelete *)
Module OrganiserDelete.
Section WithCollaborators.
Context `{Collaborators}.

Definition permission_required : string := "person.is_administrator".

Definition get_object (req : Request) : Organiser := req_organiser req.

Definition post (req : Request) : M Response :=
  let organiser := get_object req in
  call (EvShred (organiser_pk organiser))
       (Organiser_shred organiser (req_user req)) ;;
  redirect url_event_list.

End WithCollaborators.
End OrganiserDelete.

(** ** The permission gate *)

(** The view classes of the module that handle a mutating POST. *)
Inductive View :=
| VTeamDetail
| VTeamDelete
| VTeamUninvite
| VTeamResend
| VTeamResetPassword
| VOrganiserDetail
| VOrganiserDelete.

Section Dispatch.
Context `{Collaborators}.

Definition permission_required (v : View) : string :=
  match v with
  | VTeamDetail => TeamDetail.permission_required
  | VTeamDelete => TeamDelete.permission_required
  | VTeamUninvite => TeamUninvite.permission_required
  | VTeamResend => TeamResend.permission_required
  | VTeamResetPassword => TeamResetPassword.permission_required
  | VOrganiserDetail => OrganiserDetail.permission_required
  | VOrganiserDelete => OrganiserDelete.permission_required
  end.

(** [get_permission_object] of each view.  [OrganiserDetail] and
    [OrganiserDelete] do not define it; the inherited one takes
    [get_object()], which is [request.organiser] for both. *)
Definition get_permission_object (v : View) (req : Request) : M PermObject :=
  match v with
  | VTeamDetail => TeamDetail.get_permission_object req
  | VTeamDelete => TeamDelete.get_permission_object req
  | VTeamUninvite | VTeamResend => InviteMixin.get_permission_object req
  | VTeamResetPassword => TeamResetPassword.get_permission_object req
  | VOrganiserDetail => ret (PermOrganiser (OrganiserDetail.get_object req))
  | VOrganiserDelete => ret (PermOrganiser (OrganiserDelete.get_object req))
  end.

Definition post (v : View) (req : Request) : M Response :=
  match v with
  | VTeamDetail => TeamDetail.post req
  | VTeamDelete => TeamDelete.post req
  | VTeamUninvite => TeamUninvite.post req
  | VTeamResend => TeamResend.post req
  | VTeamResetPassword => TeamResetPassword.post req
  | VOrganiserDetail => OrganiserDetail.post req
  | VOrganiserDelete => OrganiserDelete.post req
  end.

Definition forbidden : Exc :=
  {| exc_class := Forbidden; exc_str := "Permission denied" |}.

(** Modelled from the spec: the dispatch of [PermissionRequired]
    (pretalx.common.views.mixins, not part of this file).  The named
    permission is evaluated against the permission object before any
    other logic; failure short-circuits with an authorization error. *)
Definition dispatch (v : View) (req : Request) : M Response :=
  obj <- get_permission_object v req ;;
  allowed <- query (fun d =>
               Ok (has_perm (req_user req) (permission_required v) obj d)) ;;
  if allowed then
    match req_method req with
    | POST => post v req
    | GET => query (view_get req)
    end
  else raise forbidden.

End Dispatch.

(** ** TeamInviteForm *)

Module TeamInviteFormSpec.

(** The first unused primary key of the invite table. *)
Definition next_invite_pk (d : DB) : Z :=
  1 + fold_right Z.max 0 (map invite_pk (tbl_invites d)).

Fixpoint create_invites (team : Z) (emails : list string) (next : Z)
  : list TeamInvite :=
  match emails with
  | [] => []
  | email :: rest =>
      {| invite_pk := next; invite_team := team; invite_email := email |}
        :: create_invites team rest (next + 1)
  end.

(** Modelled from the spec: [TeamInviteForm.save(team=...)]
    (pretalx.event.forms, not part of this file) creates one
    [TeamInvite] record of the target team for each distinct address of
    the submitted comma/newline separated list, and returns the records.
    [addresses] reads the address list out of the submission.  The spec
    speaks of a target team only; without one nothing is created. *)
Definition save (addresses : list (string * string) -> list string)
    (team : option Team) (data : list (string * string)) (d : DB)
  : result (list TeamInvite) * DB :=
  match team with
  | None => (Raise attribute_error, d)
  | Some t =>
      let invites :=
        create_invites (team_pk t) (nodup string_dec (addresses data))
                       (next_invite_pk d) in
      (Ok invites,
       {| tbl_teams := tbl_teams d;
          tbl_members := tbl_members d;
          tbl_users := tbl_users d;
          tbl_invites := tbl_invites d ++ invites;
          tbl_social_apps := tbl_social_apps d |})
  end.

(** The collaborators [C] with the invite form of the spec. *)
Definition with_invite_form (C : Collaborators)
    (addresses : list (string * string) -> list string) : Collaborators :=
  {| has_perm := @has_perm C;
     check_access_permissions_impl := @check_access_permissions_impl C;
     TeamForm_errors := @TeamForm_errors C;
     TeamForm_has_changed := @TeamForm_has_changed C;
     TeamForm_save := @TeamForm_save C;
     TeamInviteForm_errors := @TeamInviteForm_errors C;
     TeamInviteForm_save := save addresses;
     members_remove := @members_remove C;
     Model_delete := @Model_delete C;
     TeamInvite_send := @TeamInvite_send C;
     User_reset_password := @User_reset_password C;
     is_form_bound := @is_form_bound C;
     SSOClientForm_errors := @SSOClientForm_errors C;
     SSOClientForm_save := @SSOClientForm_save C;
     OrganiserForm_errors := @OrganiserForm_errors C;
     OrganiserForm_save := @OrganiserForm_save C;
     Organiser_shred := @Organiser_shred C;
     view_get := @view_get C;
     phrase_password_reset_success := @phrase_password_reset_success C;
     phrase_password_reset_fail := @phrase_password_reset_fail C;
     url_event_list := @url_event_list C |}.

End TeamInviteFormSpec.

(** ** Observations on the log *)

Definition is_check (ev : Event) : bool :=
  match ev with EvCheckAccess _ => true | _ => false end.

(** A call of [team.members.remove] or of [delete]. *)
Definition is_mutation (ev : Event) : bool :=
  match ev with EvMembersRemove _ _ | EvDelete _ => true | _ => false end.

(** How often [check_access_permissions] was called. *)
Definition check_count (evs : list Event) : nat :=
  List.length (filter is_check evs).

Definition warning_message (text : string) : Message :=
  {| msg_level := LWarning; msg_text := text |}.

Definition error_message (text : string) : Message :=
  {| msg_level := LError; msg_text := text |}.

Definition success_message (text : string) : Message :=
  {| msg_level := LSuccess; msg_text := text |}.

(** ** A concrete installation: two organisers *)

Module Demo.

Definition alpha : Organiser :=
  {| organiser_pk := 1; organiser_slug := "alpha";
     orga_urls_base := "/orga/organiser/alpha/" |}.

Definition beta : Organiser :=
  {| organiser_pk := 2; organiser_slug := "beta";
     orga_urls_base := "/orga/organiser/beta/" |}.

Definition alice : User := {| user_pk := 1; user_name := "Alice" |}.
Definition bob : User := {| user_pk := 2; user_name := "Bob" |}.
Definition carol : User := {| user_pk := 3; user_name := "Carol" |}.

Definition team_alpha : Team :=
  {| team_pk := 10; team_organiser := 1; team_name := "Alpha crew";
     team_can_change_teams := true;
     team_orga_urls_base := "/orga/organiser/alpha/teams/10/" |}.

Definition team_beta : Team :=
  {| team_pk := 20; team_organiser := 2; team_name := "Beta crew";
     team_can_change_teams := true;
     team_orga_urls_base := "/orga/organiser/beta/teams/20/" |}.

Definition invite_alpha : TeamInvite :=
  {| invite_pk := 5; invite_team := 10; invite_email := "dan@example.org" |}.

Definition invite_beta : TeamInvite :=
  {| invite_pk := 7; invite_team := 20; invite_email := "eve@example.org" |}.

Definition db0 : DB :=
  {| tbl_teams := [team_alpha; team_beta];
     tbl_members := [(10, 1); (10, 2); (20, 3)];
     tbl_users := [alice; bob; carol];
     tbl_invites := [invite_alpha; invite_beta];
     tbl_social_apps := [{| app_pk := 1; app_provider := "beta" |}] |}.

Definition w0 : World := {| db := db0; messages := []; log := [] |}.

Definition is_member (u : User) (t : Team) (d : DB) : bool :=
  existsb (fun '(tp, up) => (tp =? team_pk t) && (up =? user_pk u))
          (tbl_members d).

(** A user may act on an organiser when they are on one of its teams,
    and on a team when they may act on its organiser. *)
Definition demo_has_perm (u : User) (perm : string) (obj : PermObject)
    (d : DB) : bool :=
  let on_organiser (o : Z) :=
    existsb (fun t => (team_organiser t =? o) && is_member u t d)
            (tbl_teams d) in
  match obj with
  | PermOrganiser o => on_organiser (organiser_pk o)
  | PermTeam t => on_organiser (team_organiser t)
  | PermNone => false
  end.

(** Warns when no team of the organiser that may change teams has a
    member. *)
Definition demo_check (o : Organiser) (d : DB) : result (list string) * DB :=
  if existsb
       (fun t =>
          team_can_change_teams t
          && existsb (fun '(tp, _) => tp =? team_pk t) (tbl_members d))
       (organiser_teams o d)
  then (Ok [], d)
  else (Ok ["Nobody on your teams has the permissions to change teams."], d).

Definition demo_members_remove (t : Team) (obj : PyObj) (d : DB)
  : result unit * DB :=
  match obj with
  | ObjUser u =>
      (Ok tt,
       {| tbl_teams := tbl_teams d;
          tbl_members :=
            filter (fun '(tp, up) =>
                      negb ((tp =? team_pk t) && (up =? user_pk u)))
                   (tbl_members d);
          tbl_users := tbl_users d;
          tbl_invites := tbl_invites d;
          tbl_social_apps := tbl_social_apps d |})
  | _ => (Ok tt, d)
  end.

Definition demo_delete (obj : PyObj) (d : DB) : result unit * DB :=
  match obj with
  | ObjTeam t =>
      (Ok tt,
       {| tbl_teams := filter (fun x => negb (team_pk x =? team_pk t)) (tbl_teams d);
          tbl_members :=
            filter (fun '(tp, _) => negb (tp =? team_pk t)) (tbl_members d);
          tbl_users := tbl_users d;
          tbl_invites :=
            filter (fun i => negb (invite_team i =? team_pk t)) (tbl_invites d);
          tbl_social_apps := tbl_social_apps d |})
  | ObjInvite i =>
      (Ok tt,
       {| tbl_teams := tbl_teams d;
          tbl_members := tbl_members d;
          tbl_users := tbl_users d;
          tbl_invites :=
            filter (fun x => negb (invite_pk x =? invite_pk i)) (tbl_invites d);
          tbl_social_apps := tbl_social_apps d |})
  | ObjSocialApp a =>
      (Ok tt,
       {| tbl_teams := tbl_teams d;
          tbl_members := tbl_members d;
          tbl_users := tbl_users d;
          tbl_invites := tbl_invites d;
          tbl_social_apps :=
            filter (fun x => negb (app_pk x =? app_pk a)) (tbl_social_apps d) |})
  | ObjUser _ | ObjNone => (Ok tt, d)
  end.

(** The values of the submitted field [name]. *)
Definition field (name : string) (data : list (string * string)) : list string :=
  map snd (filter (fun kv => String.eqb (fst kv) name) data).

(** Saving the team form writes the name and the flag of the team it
    edits; without an instance it adds a team of organiser [alpha]. *)
Definition demo_team_form_save (form : TeamForm) (d : DB) : result unit * DB :=
  let name := hd "" (field "name" (form_data form)) in
  let flag := existsb (String.eqb "on") (field "can_change_teams" (form_data form)) in
  let teams :=
    match form_instance form with
    | Some t =>
        map (fun x =>
               if team_pk x =? team_pk t
               then {| team_pk := team_pk x;
                       team_organiser := team_organiser x;
                       team_name := name;
                       team_can_change_teams := flag;
                       team_orga_urls_base := team_orga_urls_base x |}
               else x)
            (tbl_teams d)
    | None =>
        (tbl_teams d ++
         [{| team_pk := 1 + fold_right Z.max 0 (map team_pk (tbl_teams d));
            team_organiser := 1;
            team_name := name;
            team_can_change_teams := flag;
            team_orga_urls_base := "/orga/organiser/alpha/teams/new/" |}])%list
    end in
  (Ok tt,
   {| tbl_teams := teams;
      tbl_members := tbl_members d;
      tbl_users := tbl_users d;
      tbl_invites := tbl_invites d;
      tbl_social_apps := tbl_social_apps d |}).

Definition demo_is_form_bound (req : Request) (name : string) : result bool :=
  Ok (match req_method req, req_POST_form req with
      | POST, Some f => String.eqb f name
      | _, _ => false
      end).

Definition demo_invite_errors (data : list (string * string)) (d : DB)
  : ErrorDict :=
  match field "invite-email" data with
  | [] => [("email", ["This field is required."])]
  | _ :: _ => []
  end.

Definition demo : Collaborators :=
  {| has_perm := demo_has_perm;
     check_access_permissions_impl := demo_check;
     TeamForm_errors := fun _ _ => [];
     TeamForm_has_changed := fun _ => true;
     TeamForm_save := demo_team_form_save;
     TeamInviteForm_errors := demo_invite_errors;
     TeamInviteForm_save := TeamInviteFormSpec.save (field "invite-email");
     members_remove := demo_members_remove;
     Model_delete := demo_delete;
     TeamInvite_send := fun _ d => (Ok tt, d);
     User_reset_password := fun _ _ d => (Ok tt, d);
     is_form_bound := demo_is_form_bound;
     SSOClientForm_errors := fun _ _ => [];
     SSOClientForm_save := fun _ _ d => (Ok tt, d);
     OrganiserForm_errors := fun _ _ _ => [];
     OrganiserForm_save := fun _ _ d => (Ok tt, d);
     Organiser_shred := fun _ _ d => (Ok tt, d);
     view_get := fun _ _ => Ok (Render "page");
     phrase_password_reset_success := "The password was reset.";
     phrase_password_reset_fail := "The password could not be reset.";
     url_event_list := "/orga/event/" |}.

Definition protected_error : Exc :=
  {| exc_class := OtherException;
     exc_str := "Cannot delete some instances because they are referenced" |}.

(** As [demo], but the database refuses every deletion and the team form
    fails after having written. *)
Definition failing : Collaborators :=
  {| has_perm := demo_has_perm;
     check_access_permissions_impl := demo_check;
     TeamForm_errors := fun _ _ => [];
     TeamForm_has_changed := fun _ => true;
     TeamForm_save :=
       fun form d => (Raise protected_error, snd (demo_team_form_save form d));
     TeamInviteForm_errors := demo_invite_errors;
     TeamInviteForm_save := TeamInviteFormSpec.save (field "invite-email");
     members_remove := demo_members_remove;
     Model_delete := fun _ d => (Raise protected_error, d);
     TeamInvite_send := fun _ d => (Ok tt, d);
     User_reset_password := fun _ _ d => (Ok tt, d);
     is_form_bound := demo_is_form_bound;
     SSOClientForm_errors := fun _ _ => [];
     SSOClientForm_save := fun _ _ d => (Raise protected_error, d);
     OrganiserForm_errors := fun _ _ _ => [];
     OrganiserForm_save := fun _ _ d => (Ok tt, d);
     Organiser_shred := fun _ _ d => (Ok tt, d);
     view_get := fun _ _ => Ok (Render "page");
     phrase_password_reset_success := "The password was reset.";
     phrase_password_reset_fail := "The password could not be reset.";
     url_event_list := "/orga/event/" |}.

(** A POST by Alice, who is on a team of [alpha], under [alpha]'s URLs. *)
Definition request (path : string) (kwargs : Kwargs) (form : option string)
    (data : list (string * string)) : Request :=
  {| req_method := POST; req_path := path; req_user := alice;
     req_organiser := alpha; req_kwargs := kwargs;
     req_POST_form := form; req_POST := data; req_GET_next := None |}.

Definition kwargs (pk user_pk' : option Z) : Kwargs :=
  {| kw_pk := pk; kw_user_pk := user_pk'; kw_organiser := Some "alpha" |}.

(** Alice edits team 10 and leaves the "can change teams" box unticked. *)
Definition edit_request : Request :=
  request "/orga/organiser/alpha/teams/10/" (kwargs (Some 10) None) None
          [("name", "Alpha crew")].

Definition edit_form : TeamForm :=
  {| form_instance := Some team_alpha; form_data := req_POST edit_request |}.

(** Alice deletes team 10. *)
Definition delete_request : Request :=
  request "/orga/organiser/alpha/teams/10/delete/" (kwargs (Some 10) None)
          None [].

(** Alice removes Bob from team 10. *)
Definition remove_bob_request : Request :=
  request "/orga/organiser/alpha/teams/10/delete/2/"
          (kwargs (Some 10) (Some 2)) None [].

(** Alice removes user 3, who is not on team 10. *)
Definition remove_carol_request : Request :=
  request "/orga/organiser/alpha/teams/10/delete/3/"
          (kwargs (Some 10) (Some 3)) None [].

(** Alice, under [alpha]'s URLs, retracts invite 7, an invite to a team of
    [beta]. *)
Definition uninvite_foreign_request : Request :=
  request "/orga/organiser/alpha/teams/invites/7/uninvite/"
          (kwargs (Some 7) None) None [].

(** Alice retracts invite 5, an invite to her own team. *)
Definition uninvite_request : Request :=
  request "/orga/organiser/alpha/teams/invites/5/uninvite/"
          (kwargs (Some 5) None) None [].

(** The installation after [alpha] has registered an SSO client. *)
Definition alpha_app : SocialApp := {| app_pk := 2; app_provider := "alpha" |}.

Definition w_sso : World :=
  {| db := {| tbl_teams := tbl_teams db0;
              tbl_members := tbl_members db0;
              tbl_users := tbl_users db0;
              tbl_invites := tbl_invites db0;
              tbl_social_apps := alpha_app :: tbl_social_apps db0 |};
     messages := [];
     log := [] |}.

(** Alice asks to remove the SSO client of [alpha]. *)
Definition remove_sso_request : Request :=
  request "/orga/organiser/alpha/" (kwargs None None)
          (Some "remove_sso_client") [].

(** Carol, who is on a team of [beta] only, posts the deletion of team 10
    under [alpha]'s URLs. *)
Definition carol_delete_request : Request :=
  {| req_method := POST;
     req_path := "/orga/organiser/alpha/teams/10/delete/";
     req_user := carol;
     req_organiser := alpha;
     req_kwargs := kwargs (Some 10) None;
     req_POST_form := None; req_POST := []; req_GET_next := None |}.

(** Alice invites two people to team 10, naming one of them twice. *)
Definition invite_request : Request :=
  request "/orga/organiser/alpha/teams/10/" (kwargs (Some 10) None)
          (Some "invite")
          [("invite-email", "fay@example.org");
           ("invite-email", "gus@example.org");
           ("invite-email", "fay@example.org")].

(** Alice submits the invite form without an address. *)
Definition empty_invite_request : Request :=
  request "/orga/organiser/alpha/teams/10/" (kwargs (Some 10) None)
          (Some "invite") [].

(** Alice asks for a new password for user 3, who is not on team 10. *)
Definition reset_carol_request : Request :=
  request "/orga/organiser/alpha/teams/10/reset/3/"
          (kwargs (Some 10) (Some 3)) None [].

(** Alice asks for a new password for Bob, who is on team 10. *)
Definition reset_bob_request : Request :=
  request "/orga/organiser/alpha/teams/10/reset/2/"
          (kwargs (Some 10) (Some 2)) None [].


(** Alice, under [alpha]'s URLs, names invite 99, which does not exist. *)
Definition uninvite_unknown_request : Request :=
  request "/orga/organiser/alpha/teams/invites/99/uninvite/"
          (kwargs (Some 99) None) None [].



(** Alice submits the SSO client form. *)
Definition sso_request : Request :=
  request "/orga/organiser/alpha/" (kwargs None None) (Some "sso_client")
          [("client_id", "abc")].

(** Alice saves the organiser settings. *)
Definition settings_request : Request :=
  request "/orga/organiser/alpha/" (kwargs None None) None
          [("name", "Alpha")].

(** As [demo], but the mail server is down and the SSO client form
    rejects every submission. *)
Definition offline : Collaborators :=
  {| has_perm := demo_has_perm;
     check_access_permissions_impl := demo_check;
     TeamForm_errors := fun _ _ => [("name", ["This field is required."])];
     TeamForm_has_changed := fun _ => false;
     TeamForm_save := demo_team_form_save;
     TeamInviteForm_errors := demo_invite_errors;
     TeamInviteForm_save := TeamInviteFormSpec.save (field "invite-email");
     members_remove := demo_members_remove;
     Model_delete := demo_delete;
     TeamInvite_send :=
       fun _ d => (Raise {| exc_class := SendMailException;
                            exc_str := "Connection refused" |}, d);
     User_reset_password :=
       fun _ _ d => (Raise {| exc_class := SendMailException;
                              exc_str := "Connection refused" |}, d);
     is_form_bound := demo_is_form_bound;
     SSOClientForm_errors := fun _ _ => [("client_id", ["Invalid."])];
     SSOClientForm_save := fun _ _ d => (Ok tt, d);
     OrganiserForm_errors := fun _ _ _ => [];
     OrganiserForm_save := fun _ _ d => (Ok tt, d);
     Organiser_shred := fun _ _ d => (Ok tt, d);
     view_get := fun _ _ => Ok (Render "page");
     phrase_password_reset_success := "The password was reset.";
     phrase_password_reset_fail := "The password could not be reset.";
     url_event_list := "/orga/event/" |}.

Definition orphan_error : Exc :=
  {| exc_class := OtherException;
     exc_str := "Nobody on your teams has the permissions to change teams." |}.

(** The collaborators of [demo] with another checker, another [delete()]
    and another page. *)
Definition variant
    (check : Organiser -> DB -> result (list string) * DB)
    (delete' : PyObj -> DB -> result unit * DB)
    (page : Request -> DB -> result Response) : Collaborators :=
  {| has_perm := demo_has_perm;
     check_access_permissions_impl := check;
     TeamForm_errors := fun _ _ => [];
     TeamForm_has_changed := fun _ => true;
     TeamForm_save := demo_team_form_save;
     TeamInviteForm_errors := demo_invite_errors;
     TeamInviteForm_save := TeamInviteFormSpec.save (field "invite-email");
     members_remove := demo_members_remove;
     Model_delete := delete';
     TeamInvite_send := fun _ d => (Ok tt, d);
     User_reset_password := fun _ _ d => (Ok tt, d);
     is_form_bound := demo_is_form_bound;
     SSOClientForm_errors := fun _ _ => [];
     SSOClientForm_save := fun _ _ d => (Ok tt, d);
     OrganiserForm_errors := fun _ _ _ => [];
     OrganiserForm_save := fun _ _ d => (Ok tt, d);
     Organiser_shred := fun _ _ d => (Ok tt, d);
     view_get := page;
     phrase_password_reset_success := "The password was reset.";
     phrase_password_reset_fail := "The password could not be reset.";
     url_event_list := "/orga/event/" |}.

(** A checker that refuses, by an exception, what [demo_check] warns
    about. *)
Definition strict : Collaborators :=
  variant
    (fun o d =>
       match demo_check o d with
       | (Ok [], d') => (Ok [], d')
       | (_, d') => (Raise orphan_error, d')
       end)
    demo_delete
    (fun _ _ => Ok (Render "page")).

(** Deletions are refused and the page cannot be rendered either. *)
Definition broken_page : Collaborators :=
  variant demo_check
    (fun _ d => (Raise protected_error, d))
    (fun _ _ => Raise {| exc_class := OtherException;
                         exc_str := "TemplateDoesNotExist" |}).

(** The installation with the SSO client of [alpha] registered twice. *)
Definition w_sso_twice : World :=
  {| db := {| tbl_teams := tbl_teams db0;
              tbl_members := tbl_members db0;
              tbl_users := tbl_users db0;
              tbl_invites := tbl_invites db0;
              tbl_social_apps :=
                [alpha_app; {| app_pk := 3; app_provider := "alpha" |}] |};
     messages := [];
     log := [] |}.

End Demo.

(** * Properties *)

(** ** The monad *)

Lemma bind_ok {A B} (m : M A) (k : A -> M B) w a w1 :
  m w = (Ok a, w1) -> bind m k w = k a w1.
Proof. intros E. unfold bind. rewrite E. reflexivity. Qed.

Lemma bind_raise {A B} (m : M A) (k : A -> M B) w e w1 :
  m w = (Raise e, w1) -> bind m k w = (Raise e, w1).
Proof. intros E. unfold bind. rewrite E. reflexivity. Qed.

Lemma try_except_ok {A} (m : M A) h w a w1 :
  m w = (Ok a, w1) -> try_except m h w = (Ok a, w1).
Proof. intros E. unfold try_except. rewrite E. reflexivity. Qed.

Lemma try_except_raise {A} (m : M A) h w e w1 :
  m w = (Raise e, w1) -> try_except m h w = h e w1.
Proof. intros E. unfold try_except. rewrite E. reflexivity. Qed.

Lemma atomic_ok {A} (m : M A) w a w1 :
  m (add_event TxBegin w) = (Ok a, w1) ->
  atomic m w = (Ok a, add_event TxCommit w1).
Proof. intros E. unfold atomic. rewrite E. reflexivity. Qed.

Lemma atomic_ok_eq {A} (m : M A) w a w1 w2 :
  m (add_event TxBegin w) = (Ok a, w1) ->
  add_event TxCommit w1 = w2 ->
  atomic m w = (Ok a, w2).
Proof. intros E <-. now apply atomic_ok. Qed.

(** An exception inside [atomic] restores the database of the entry. *)
Lemma atomic_raise {A} (m : M A) w e w1 :
  m (add_event TxBegin w) = (Raise e, w1) ->
  atomic m w = (Raise e, add_event TxRollback (set_db (db w) w1)).
Proof. intros E. unfold atomic. rewrite E. reflexivity. Qed.

Lemma call_run {A} ev (f : DB -> result A * DB) w r d :
  f (db w) = (r, d) ->
  call ev f w =
  (r, {| db := d; messages := messages w; log := log w ++ [ev] |}).
Proof. intros E. unfold call. simpl. rewrite E. reflexivity. Qed.

Lemma call_eq {A} ev (f : DB -> result A * DB) w :
  call ev f w =
  (fst (f (db w)),
   {| db := snd (f (db w)); messages := messages w; log := log w ++ [ev] |}).
Proof. unfold call. simpl. destruct (f (db w)); reflexivity. Qed.

Lemma for_each_warning ws w :
  for_each ws messages_warning w =
  (Ok tt, {| db := db w;
             messages := messages w ++ map warning_message ws;
             log := log w |}).
Proof.
  revert w. induction ws as [|x ws IH]; intros w; simpl.
  - unfold ret. rewrite app_nil_r. destruct w; reflexivity.
  - unfold bind, messages_warning. rewrite IH. simpl.
    rewrite <- app_assoc. reflexivity.
Qed.

Lemma report_warnings_run ws w :
  report_warnings ws w =
  (Ok tt, {| db := db w;
             messages := messages w ++ map warning_message ws;
             log := log w |}).
Proof.
  destruct ws as [|x ws].
  - simpl. unfold ret. rewrite app_nil_r. destruct w; reflexivity.
  - unfold report_warnings. apply for_each_warning.
Qed.

(** ** Editing a team *)

Section TeamEdit.
Context `{Collaborators}.

(** The atomic block of [form_valid] on an edit whose save and check both
    return. *)
Lemma save_body_edit_ok req form t w d1 ws d2 :
  form_instance form = Some t ->
  team_pk t <> 0 ->
  TeamForm_save form (db w) = (Ok tt, d1) ->
  check_access_permissions_impl (req_organiser req) d1 = (Ok ws, d2) ->
  atomic (TeamDetail.save_body req form) w =
  (Ok ws,
   {| db := d2;
      messages := messages w;
      log := log w ++ [TxBegin; EvTeamFormSave (Some (team_pk t));
                       EvCheckAccess (organiser_pk (req_organiser req));
                       TxCommit] |}).
Proof.
  intros Hi Hpk Hs Hc.
  assert (Hcr : TeamDetail.created form = false).
  { unfold TeamDetail.created. rewrite Hi. simpl.
    destruct (Z.eqb_spec (team_pk t) 0); [contradiction | reflexivity]. }
  apply atomic_ok_eq with
    (w1 := {| db := d2; messages := messages w;
              log := log w ++ [TxBegin; EvTeamFormSave (Some (team_pk t));
                               EvCheckAccess (organiser_pk (req_organiser req))] |}).
  - unfold TeamDetail.save_body. rewrite Hi, Hcr. simpl option_map. cbv iota.
    erewrite bind_ok. 2:{ apply call_run. exact Hs. }
    cbn [negb]. unfold check_access_permissions.
    erewrite call_run. 2:{ exact Hc. }
    cbn [db messages log add_event]. repeat rewrite <- app_assoc. reflexivity.
  - unfold add_event. cbn [db messages log]. rewrite <- app_assoc. reflexivity.
Qed.

End TeamEdit.

(** C1: on an edit of an existing team whose save succeeds and whose
    invariant check returns warnings without raising, the transaction is
    committed (the database handed on is the one after the save and the
    check, and no rollback is logged), every returned warning is queued
    as a warning message, and the request continues through
    [super().form_valid]. *)
Theorem C1_edit_with_warnings_is_committed
    `{Collaborators} req form t w d1 ws d2 :
  form_instance form = Some t ->
  team_pk t <> 0 ->
  TeamForm_save form (db w) = (Ok tt, d1) ->
  check_access_permissions_impl (req_organiser req) d1 = (Ok ws, d2) ->
  ws <> [] ->
  let w1 :=
    {| db := d2;
       messages :=
         (messages w ++ map warning_message ws ++
          (if TeamForm_has_changed form
           then [success_message "The settings have been saved."]
           else []))%list;
       log := log w ++ [TxBegin; EvTeamFormSave (Some (team_pk t));
                        EvCheckAccess (organiser_pk (req_organiser req));
                        TxCommit] |} in
  TeamDetail.form_valid req form w = TeamDetail.super_form_valid req form w1
  /\ messages (snd (TeamDetail.form_valid req form w)) = messages w1
  /\ (forall x, In x ws ->
        In (warning_message x) (messages (snd (TeamDetail.form_valid req form w))))
  /\ log (snd (TeamDetail.form_valid req form w)) =
       (log w1 ++ [EvTeamFormSave (Some (team_pk t))])%list
  /\ ~ In TxRollback
         (skipn (List.length (log w)) (log (snd (TeamDetail.form_valid req form w)))).
Proof.
  intros Hi Hpk Hs Hc Hne w1.
  assert (Hcr : TeamDetail.created form = false).
  { unfold TeamDetail.created. rewrite Hi. simpl.
    destruct (Z.eqb_spec (team_pk t) 0); [contradiction | reflexivity]. }
  assert (Hrun : TeamDetail.form_valid req form w
                 = TeamDetail.super_form_valid req form w1).
  { unfold TeamDetail.form_valid.
    erewrite bind_ok.
    2:{ apply try_except_ok. erewrite bind_ok.
        2:{ eapply save_body_edit_ok; eassumption. }
        reflexivity. }
    cbv beta iota.
    erewrite bind_ok. 2:{ apply report_warnings_run. }
    rewrite Hcr. cbn [messages db log].
    destruct (TeamForm_has_changed form).
    - erewrite bind_ok. 2:{ reflexivity. }
      unfold w1, add_message, success_message. cbn [messages db log].
      rewrite <- app_assoc. reflexivity.
    - erewrite bind_ok. 2:{ reflexivity. }
      unfold w1. rewrite app_nil_r. reflexivity. }
  assert (Hm : messages (snd (TeamDetail.super_form_valid req form w1))
               = messages w1).
  { unfold TeamDetail.super_form_valid, bind, call, redirect, ret.
    destruct (TeamForm_save form (db (add_event _ w1))) as [[[]|e] d]; reflexivity. }
  assert (Hl : log (snd (TeamDetail.super_form_valid req form w1))
               = (log w1 ++ [EvTeamFormSave (Some (team_pk t))])%list).
  { unfold TeamDetail.super_form_valid, bind, call, redirect, ret.
    rewrite Hi.
    destruct (TeamForm_save form (db (add_event _ w1))) as [[[]|e] d]; reflexivity. }
  rewrite Hrun. repeat split.
  - exact Hm.
  - intros x Hx. rewrite Hm. unfold w1. cbn [messages].
    apply in_or_app. right. apply in_or_app. left. now apply in_map.
  - exact Hl.
  - rewrite Hl. unfold w1. cbn [log]. rewrite <- app_assoc.
    rewrite skipn_app, skipn_all, Nat.sub_diag. simpl.
    intros [F|[F|[F|[F|[F|[]]]]]]; discriminate F.
Qed.

Lemma C1_witness :
  In (warning_message "Nobody on your teams has the permissions to change teams.")
     (messages (snd (TeamDetail.form_valid (H := Demo.demo)
                       Demo.edit_request Demo.edit_form Demo.w0))).
Proof.
  eapply (C1_edit_with_warnings_is_committed (H := Demo.demo)
            Demo.edit_request Demo.edit_form Demo.team_alpha Demo.w0).
  - reflexivity.
  - discriminate.
  - vm_compute. reflexivity.
  - vm_compute. reflexivity.
  - discriminate.
  - left. reflexivity.
Defined.

(** ** A failing save is rolled back *)

Section TeamSaveFails.
Context `{Collaborators}.

(** The atomic block of [form_valid] queues no message, and logs the save
    and at most the check after it. *)
Lemma save_body_shape req form w r wb :
  TeamDetail.save_body req form w = (r, wb) ->
  messages wb = messages w
  /\ exists evs,
       log wb =
       (log w ++ [EvTeamFormSave (option_map team_pk (form_instance form))]
              ++ evs)%list
       /\ (evs = [] \/ evs = [EvCheckAccess (organiser_pk (req_organiser req))]).
Proof.
  unfold TeamDetail.save_body, bind, check_access_permissions.
  rewrite call_eq.
  destruct (TeamForm_save form (db w)) as [[[]|e] d1]; cbn [fst snd].
  - destruct (negb (TeamDetail.created form)).
    + rewrite call_eq. cbn [db messages log].
      intros E. inversion E; subst. cbn [messages log]. split; [reflexivity|].
      exists [EvCheckAccess (organiser_pk (req_organiser req))].
      rewrite <- app_assoc. split; [reflexivity | now right].
    + unfold ret. intros E. inversion E; subst. cbn [messages log].
      split; [reflexivity|]. exists []. split; [reflexivity | now left].
  - intros E. inversion E; subst. cbn [messages log].
    split; [reflexivity|]. exists []. split; [reflexivity | now left].
Qed.

End TeamSaveFails.

(** C4: when an exception leaves the atomic block of a team create or
    update (raised by [form.save] or by the invariant check after it), the
    database after the request is the database before it, the exception's
    message is queued as an error, the answer is that of [self.get], and
    the success path ([super().form_valid], a second save) is not taken. *)
Theorem C4_failed_save_is_rolled_back `{Collaborators} req form w e wb :
  TeamDetail.save_body req form (add_event TxBegin w) = (Raise e, wb) ->
  TeamDetail.form_valid req form w =
    (view_get req (db w),
     {| db := db w;
        messages := messages w ++ [error_message (exc_str e)];
        log := log wb ++ [TxRollback] |})
  /\ exists evs,
       log wb =
       (log w ++ [TxBegin;
                  EvTeamFormSave (option_map team_pk (form_instance form))]
              ++ evs)%list
       /\ (evs = [] \/ evs = [EvCheckAccess (organiser_pk (req_organiser req))]).
Proof.
  intros Hb.
  destruct (save_body_shape _ _ _ _ _ Hb) as [Hm [evs [Hl Hevs]]].
  split.
  - unfold TeamDetail.form_valid, bind, try_except.
    rewrite (atomic_raise _ _ _ _ Hb).
    unfold messages_error, query, ret, error_message.
    cbn [db messages log add_message add_event set_db].
    destruct (view_get req (db w));
      unfold add_message, add_event, set_db; cbn [db messages log];
      rewrite Hm; reflexivity.
  - exists evs. split; [|exact Hevs].
    rewrite Hl. cbn [log add_event]. rewrite <- app_assoc. reflexivity.
Qed.

Lemma C4_witness :
  TeamDetail.form_valid (H := Demo.failing)
    Demo.edit_request Demo.edit_form Demo.w0 =
  (Ok (Render "page"),
   {| db := Demo.db0;
      messages := [error_message (exc_str Demo.protected_error)];
      log := [TxBegin; EvTeamFormSave (Some 10); TxRollback] |}).
Proof.
  pose proof (C4_failed_save_is_rolled_back (H := Demo.failing)
                Demo.edit_request Demo.edit_form Demo.w0 Demo.protected_error
                (snd (TeamDetail.save_body (H := Demo.failing)
                        Demo.edit_request Demo.edit_form
                        (add_event TxBegin Demo.w0)))) as P.
  assert (Hb : TeamDetail.save_body (H := Demo.failing)
                 Demo.edit_request Demo.edit_form (add_event TxBegin Demo.w0)
               = (Raise Demo.protected_error,
                  snd (TeamDetail.save_body (H := Demo.failing)
                         Demo.edit_request Demo.edit_form
                         (add_event TxBegin Demo.w0)))).
  { vm_compute. reflexivity. }
  destruct (P Hb) as [E _]. rewrite E. vm_compute. reflexivity.
Defined.

(** ** Deleting a team, removing a member *)

Lemma query_eq {A} (f : DB -> result A) w : query f w = (f (db w), w).
Proof. reflexivity. Qed.

Lemma get_team_pure req w r w1 :
  TeamMixin._get_team req w = (r, w1) -> w1 = w.
Proof.
  unfold TeamMixin._get_team, bind, ret.
  destruct (kw_pk (req_kwargs req)) as [pk|].
  - rewrite query_eq.
    destruct (get_object_or_404 _ _ pk); intros E; inversion E; reflexivity.
  - intros E; inversion E; reflexivity.
Qed.

Section TeamDeleteFacts.
Context `{Collaborators}.

Lemma get_object_pure req w r w1 :
  TeamDelete.get_object req w = (r, w1) -> w1 = w.
Proof.
  unfold TeamDelete.get_object, TeamMixin.get_object, bind.
  destruct (TeamMixin._get_team req w) as [[t|e] w2] eqn:E1;
    apply get_team_pure in E1; subst w2.
  - destruct (kw_user_pk (req_kwargs req)).
    + destruct t as [t|].
      * rewrite query_eq. unfold ret. intros E; inversion E; reflexivity.
      * unfold raise. intros E; inversion E; reflexivity.
    + unfold ret. intros E; inversion E; reflexivity.
  - intros E; inversion E; reflexivity.
Qed.

(** The mutation queues no message; it either stops before any call, by
    an exception of the resolution, or makes exactly one call. *)
Lemma mutation_shape req w r w1 :
  TeamDelete.mutation req w = (r, w1) ->
  messages w1 = messages w
  /\ ((w1 = w /\ exists e, r = Raise e)
      \/ exists ev, is_mutation ev = true /\ log w1 = (log w ++ [ev])%list).
Proof.
  unfold TeamDelete.mutation, TeamDelete.remove_member,
    TeamDelete.delete_object, TeamMixin.team, bind.
  destruct (kw_user_pk (req_kwargs req)) as [upk|].
  - destruct (TeamMixin._get_team req w) as [[t|e] w2] eqn:E1;
      apply get_team_pure in E1; subst w2.
    + destruct t as [t|].
      * destruct (TeamDelete.get_object req w) as [[obj|e] w2] eqn:E2;
          apply get_object_pure in E2; subst w2.
        -- rewrite call_eq. intros E; inversion E; subst; cbn [messages log].
           split; [reflexivity|]. right. eexists. split; [|reflexivity].
           reflexivity.
        -- intros E; inversion E; subst. split; [reflexivity|].
           left. split; [reflexivity|]. now exists e.
      * unfold raise. intros E; inversion E; subst. split; [reflexivity|].
        left. split; [reflexivity|]. now eexists.
    + intros E; inversion E; subst. split; [reflexivity|].
      left. split; [reflexivity|]. now exists e.
  - destruct (TeamDelete.get_object req w) as [[obj|e] w2] eqn:E2;
      apply get_object_pure in E2; subst w2.
    + unfold delete. destruct obj; try rewrite call_eq;
        intros E; inversion E; subst; cbn [messages log];
        (split; [reflexivity|]);
        try (right; eexists; split; [|reflexivity]; reflexivity).
      left. split; [reflexivity|]. now eexists.
    + intros E; inversion E; subst. split; [reflexivity|].
      left. split; [reflexivity|]. now exists e.
Qed.

End TeamDeleteFacts.

Ltac simpl_world :=
  unfold messages_success, messages_error, messages_warning, query, redirect,
    ret, raise, add_message, add_event, set_db;
  cbn [db messages log fst snd].

Lemma check_count_app evs evs' :
  check_count (evs ++ evs') = (check_count evs + check_count evs')%nat.
Proof. unfold check_count. rewrite filter_app, length_app. reflexivity. Qed.

Lemma post_body_mutation `{Collaborators} req :
  TeamDelete.post_body req =
  (TeamDelete.mutation req ;;
   warnings <- check_access_permissions (req_organiser req) ;;
   messages_success
     (match kw_user_pk (req_kwargs req) with
      | Some _ => "The member was removed from the team."
      | None => "The team was removed."
      end) ;;
   ret warnings).
Proof.
  unfold TeamDelete.post_body, TeamDelete.mutation.
  destruct (kw_user_pk (req_kwargs req)); reflexivity.
Qed.

(** C2, as the code has it: [TeamDelete.post] opens one transaction and
    runs the delete or remove mutation in it.  When the mutation returns,
    [check_access_permissions] is called exactly once, directly after the
    mutation and before the transaction ends; when the mutation raises,
    the transaction is rolled back and the checker is not called. *)
Theorem C2_check_once_after_completed_mutation `{Collaborators} req w :
  match TeamDelete.mutation req (add_event TxBegin w) with
  | (Ok _, w1) =>
      exists ev fin,
        is_mutation ev = true
        /\ log w1 = (log w ++ [TxBegin; ev])%list
        /\ log (snd (TeamDelete.post req w)) =
           (log w ++ [TxBegin; ev;
                      EvCheckAccess (organiser_pk (req_organiser req)); fin])%list
        /\ (fin = TxCommit \/ fin = TxRollback)
        /\ check_count (log (snd (TeamDelete.post req w))) =
           (check_count (log w) + 1)%nat
  | (Raise _, w1) =>
      log (snd (TeamDelete.post req w)) = (log w1 ++ [TxRollback])%list
      /\ check_count (log (snd (TeamDelete.post req w))) = check_count (log w)
  end.
Proof.
  destruct (TeamDelete.mutation req (add_event TxBegin w)) as [[[]|e] w1] eqn:Em.
  - destruct (mutation_shape _ _ _ _ Em) as [Hm [[_ [e He]]|[ev [Hev Hl]]]];
      [discriminate He|].
    assert (Hlog : log w1 = (log w ++ [TxBegin; ev])%list).
    { rewrite Hl. unfold add_event. cbn [log]. rewrite <- app_assoc. reflexivity. }
    assert (Hpost :
      exists fin,
        log (snd (TeamDelete.post req w)) =
        (log w1 ++ [EvCheckAccess (organiser_pk (req_organiser req)); fin])%list
        /\ (fin = TxCommit \/ fin = TxRollback)).
    { unfold TeamDelete.post, bind, try_except, atomic.
      rewrite post_body_mutation. unfold bind at 1. rewrite Em.
      unfold bind, check_access_permissions. rewrite call_eq.
      destruct (check_access_permissions_impl (req_organiser req) (db w1))
        as [[ws|e] d2]; cbn [fst snd].
      - exists TxCommit. split; [|now left].
        unfold messages_success, ret. cbn [add_message add_event db messages log].
        rewrite report_warnings_run.
        unfold redirect, ret, add_event, add_message. cbn [db messages log snd].
        rewrite <- app_assoc. reflexivity.
      - exists TxRollback. split; [|now right].
        simpl_world.
        destruct (view_get req (db w)); cbn [snd log];
          rewrite <- app_assoc; reflexivity. }
    destruct Hpost as [fin [Hp Hfin]].
    exists ev, fin. repeat split; try assumption.
    + rewrite Hp, Hlog, <- app_assoc. reflexivity.
    + rewrite Hp, Hlog. repeat rewrite check_count_app.
      assert (Hc : check_count [TxBegin; ev] = 0%nat).
      { destruct ev; try discriminate Hev; reflexivity. }
      rewrite Hc.
      assert (Hf : check_count [EvCheckAccess (organiser_pk (req_organiser req)); fin]
                   = 1%nat).
      { destruct Hfin; subst fin; reflexivity. }
      rewrite Hf. lia.
  - assert (Hp : log (snd (TeamDelete.post req w)) = (log w1 ++ [TxRollback])%list).
    { unfold TeamDelete.post, bind, try_except, atomic.
      rewrite post_body_mutation. unfold bind at 1. rewrite Em.
      simpl_world.
      destruct (view_get req (db w)); reflexivity. }
    split; [exact Hp|].
    rewrite Hp, check_count_app.
    destruct (mutation_shape _ _ _ _ Em) as [_ [[-> _]|[ev [Hev Hl]]]].
    + unfold add_event. cbn [log]. rewrite check_count_app.
      change (check_count [TxBegin]) with 0%nat.
      change (check_count [TxRollback]) with 0%nat. lia.
    + rewrite Hl. unfold add_event. cbn [log]. repeat rewrite check_count_app.
      assert (Hc : check_count [ev] = 0%nat).
      { destruct ev; try discriminate Hev; reflexivity. }
      rewrite Hc.
      change (check_count [TxBegin]) with 0%nat.
      change (check_count [TxRollback]) with 0%nat. lia.
Qed.

(** The claim fails as stated: the database refuses the deletion of team
    10, and the checker is not called at all in that request. *)
Lemma C2_counterexample :
  log (snd (TeamDelete.post (H := Demo.failing) Demo.delete_request Demo.w0)) =
    [TxBegin; EvDelete (ObjTeam Demo.team_alpha); TxRollback]
  /\ check_count
       (log (snd (TeamDelete.post (H := Demo.failing)
                    Demo.delete_request Demo.w0))) <> 1%nat.
Proof. split; [vm_compute; reflexivity | vm_compute; discriminate]. Qed.

(** ** Resolving teams and invites *)

Lemma filter_none {A} (f : A -> bool) (l : list A) :
  (forall x, In x l -> f x = false) -> filter f l = [].
Proof.
  induction l as [|a l IH]; intros Hf; simpl; [reflexivity|].
  rewrite (Hf a (or_introl eq_refl)). apply IH.
  intros x Hx. apply Hf. now right.
Qed.

Lemma get_object_or_404_missing {A} (pk_of : A -> Z) rows pk :
  (forall x, In x rows -> pk_of x <> pk) ->
  get_object_or_404 pk_of rows pk = Raise http404.
Proof.
  intros Hn. unfold get_object_or_404.
  rewrite filter_none; [reflexivity|].
  intros x Hx. apply Z.eqb_neq. now apply Hn.
Qed.

(** A team pk that is not the pk of a team of the request's organiser is
    answered by [Http404], and nothing is touched. *)
Lemma get_team_foreign_pk req w pk :
  kw_pk (req_kwargs req) = Some pk ->
  (forall t, In t (organiser_teams (req_organiser req) (db w)) -> team_pk t <> pk) ->
  TeamMixin._get_team req w = (Raise http404, w).
Proof.
  intros Hk Hn. unfold TeamMixin._get_team. rewrite Hk.
  unfold bind. rewrite query_eq.
  rewrite get_object_or_404_missing by exact Hn. reflexivity.
Qed.


(** [TeamUninvite.get_object] finds an invite by its pk alone, whatever
    the organiser of the request is. *)
Lemma uninvite_get_object_unscoped `{Collaborators} req w pk i :
  kw_pk (req_kwargs req) = Some pk ->
  filter (fun x => invite_pk x =? pk) (tbl_invites (db w)) = [i] ->
  TeamUninvite.get_object req w = (Ok i, w).
Proof.
  intros Hk Hf.
  unfold TeamUninvite.get_object, SingleObjectMixin_get_object.
  rewrite Hk, query_eq. unfold get_object_or_404. rewrite Hf. reflexivity.
Qed.

(** Whatever the collaborators do, [TeamUninvite.post] calls [delete] on
    the invite that the bare pk lookup has found. *)
Lemma uninvite_post_deletes_found_invite `{Collaborators} req w pk i :
  kw_pk (req_kwargs req) = Some pk ->
  filter (fun x => invite_pk x =? pk) (tbl_invites (db w)) = [i] ->
  log (snd (TeamUninvite.post req w)) = (log w ++ [EvDelete (ObjInvite i)])%list.
Proof.
  intros Hk Hf. unfold TeamUninvite.post. unfold bind at 1.
  rewrite (uninvite_get_object_unscoped _ _ _ _ Hk Hf).
  unfold bind, delete. rewrite call_eq.
  destruct (Model_delete (ObjInvite i) (db w)) as [[[]|e] d]; reflexivity.
Qed.

(** C3, at the failing input: Alice may change the teams of [alpha].  Her
    POST under [alpha]'s URLs names invite 7, which belongs to a team of
    [beta] and to no team of [alpha].  The request passes the gate, the
    invite is deleted and the retraction is reported as a success. *)
Theorem C3_foreign_invite_is_retracted :
  (forall t, In t (organiser_teams Demo.alpha Demo.db0) ->
             ~ In Demo.invite_beta (team_invites t Demo.db0))
  /\ dispatch (H := Demo.demo) VTeamUninvite
       Demo.uninvite_foreign_request Demo.w0 =
     (Ok (Redirect "/orga/organiser/alpha/"),
      {| db := {| tbl_teams := tbl_teams Demo.db0;
                  tbl_members := tbl_members Demo.db0;
                  tbl_users := tbl_users Demo.db0;
                  tbl_invites := [Demo.invite_alpha];
                  tbl_social_apps := tbl_social_apps Demo.db0 |};
         messages := [success_message "The team invitation was retracted."];
         log := [EvDelete (ObjInvite Demo.invite_beta)] |}).
Proof.
  split.
  - intros t Ht Hi. vm_compute in Ht.
    destruct Ht as [<-|[]]. vm_compute in Hi.
    destruct Hi as [Hi|[]]. discriminate Hi.
  - vm_compute. reflexivity.
Qed.

(** ** The error boundary of [OrganiserDetail.post] *)

(** C5, as the code has it: [OrganiserDetail.post] (settings save, SSO
    client save, SSO client removal) never lets an exception out.  An
    exception that leaves the body of its [try] block is turned into the
    error message "An error occurred: " followed by the exception's text,
    and answered by a redirect to the request path. *)
Theorem C5_organiser_post_catches_everything `{Collaborators} req w :
  (exists response, fst (OrganiserDetail.post req w) = Ok response)
  /\ (forall e w1,
        OrganiserDetail.post_body req w = (Raise e, w1) ->
        OrganiserDetail.post req w =
        (Ok (Redirect (req_path req)),
         add_message (error_message ("An error occurred: " ++ exc_str e)) w1)).
Proof.
  unfold OrganiserDetail.post, try_except.
  destruct (OrganiserDetail.post_body req w) as [[response|e] w1].
  - split; [now exists response|]. intros e w2 E. discriminate E.
  - split.
    + exists (Redirect (req_path req)). reflexivity.
    + intros e' w2 E. inversion E; subst. reflexivity.
Qed.

Lemma C5_witness :
  OrganiserDetail.post (H := Demo.failing) Demo.remove_sso_request Demo.w_sso =
  (Ok (Redirect "/orga/organiser/alpha/"),
   {| db := db Demo.w_sso;
      messages :=
        [error_message
           "An error occurred: Cannot delete some instances because they are referenced"];
      log := [EvDelete (ObjSocialApp Demo.alpha_app)] |}).
Proof.
  rewrite (proj2 (C5_organiser_post_catches_everything (H := Demo.failing)
                    Demo.remove_sso_request Demo.w_sso)
                 Demo.protected_error
                 {| db := db Demo.w_sso; messages := [];
                    log := [EvDelete (ObjSocialApp Demo.alpha_app)] |}).
  - vm_compute. reflexivity.
  - vm_compute. reflexivity.
Defined.

(** The claim fails as stated: [TeamUninvite.post] has no [try] block.
    When the deletion of Alice's own invite 5 raises, the exception leaves
    the view; no message is queued and no redirect is answered. *)
Lemma C5_counterexample :
  dispatch (H := Demo.failing) VTeamUninvite Demo.uninvite_request Demo.w0 =
  (Raise Demo.protected_error,
   {| db := Demo.db0; messages := [];
      log := [EvDelete (ObjInvite Demo.invite_alpha)] |}).
Proof. vm_compute. reflexivity. Qed.

(** ** The permission gate *)

Lemma get_object_or_404_found {A} (pk_of : A -> Z) rows pk x :
  get_object_or_404 pk_of rows pk = Ok x -> In x rows /\ pk_of x = pk.
Proof.
  unfold get_object_or_404, queryset_get.
  destruct (filter (fun y => pk_of y =? pk) rows) as [|y [|z l]] eqn:Hf;
    cbn; intros E; try discriminate E.
  inversion E; subst y.
  assert (Hin : In x (filter (fun y => pk_of y =? pk) rows))
    by (rewrite Hf; now left).
  apply filter_In in Hin. destruct Hin as [Hin Hpk].
  split; [exact Hin | now apply Z.eqb_eq].
Qed.

Lemma get_team_found req w pk r w1 :
  kw_pk (req_kwargs req) = Some pk ->
  TeamMixin._get_team req w = (Ok r, w1) ->
  exists t, r = Some t /\ team_pk t = pk
            /\ In t (organiser_teams (req_organiser req) (db w)).
Proof.
  intros Hk. unfold TeamMixin._get_team. rewrite Hk.
  unfold bind. rewrite query_eq.
  destruct (get_object_or_404 team_pk _ pk) as [t|e] eqn:E; intros E';
    inversion E'; subst.
  apply get_object_or_404_found in E. destruct E as [Hin Hpk].
  exists t. repeat split; assumption.
Qed.

(** C6, as the code has it: the permission object is the organiser of
    the request for team creation, organiser settings and SSO management,
    organiser deletion, invite retraction and resending, and password
    reset; it is the team named by the pk, a team of that organiser, for
    team edit (with the invite sub-form of an existing team), team
    deletion and member removal.  Resolving it touches nothing, and when
    the permission is not granted on it the request ends with the
    authorization error in an unchanged state. *)
Theorem C6_permission_gate `{Collaborators} v req w obj w1 :
  get_permission_object v req w = (Ok obj, w1) ->
  w1 = w
  /\ match v, kw_pk (req_kwargs req) with
     | VTeamDetail, Some pk | VTeamDelete, Some pk =>
         exists t, obj = PermTeam t /\ team_pk t = pk
                   /\ In t (organiser_teams (req_organiser req) (db w))
     | VTeamDelete, None => obj = PermNone
     | _, _ => obj = PermOrganiser (req_organiser req)
     end
  /\ (has_perm (req_user req) (permission_required v) obj (db w) = false ->
      dispatch v req w = (Raise forbidden, w)).
Proof.
  intros Hg.
  assert (Hw : w1 = w /\
               match v, kw_pk (req_kwargs req) with
               | VTeamDetail, Some pk | VTeamDelete, Some pk =>
                   exists t, obj = PermTeam t /\ team_pk t = pk
                             /\ In t (organiser_teams (req_organiser req) (db w))
               | VTeamDelete, None => obj = PermNone
               | _, _ => obj = PermOrganiser (req_organiser req)
               end).
  { revert Hg. destruct v; cbn [get_permission_object];
      unfold TeamDetail.get_permission_object, TeamDetail.get_object,
        TeamDelete.get_permission_object, InviteMixin.get_permission_object,
        TeamResetPassword.get_permission_object, TeamMixin.get_object,
        OrganiserDetail.get_object, OrganiserDelete.get_object, ret.
    - destruct (kw_pk (req_kwargs req)) as [pk|] eqn:Hk.
      + unfold bind.
        destruct (TeamMixin._get_team req w) as [[r|e] w2] eqn:E;
          intros E'; inversion E'; subst.
        pose proof (get_team_pure _ _ _ _ E) as ->.
        destruct (get_team_found _ _ _ _ _ Hk E) as [t [-> [Hpk Hin]]].
        split; [reflexivity|]. exists t. repeat split; assumption.
      + intros E; inversion E; subst. split; reflexivity.
    - unfold bind.
      destruct (TeamMixin._get_team req w) as [[r|e] w2] eqn:E;
        intros E'; inversion E'; subst.
      pose proof (get_team_pure _ _ _ _ E) as ->.
      destruct (kw_pk (req_kwargs req)) as [pk|] eqn:Hk.
      + destruct (get_team_found _ _ _ _ _ Hk E) as [t [-> [Hpk Hin]]].
        split; [reflexivity|]. exists t. repeat split; assumption.
      + unfold TeamMixin._get_team in E. rewrite Hk in E.
        inversion E; subst. split; reflexivity.
    - intros E; inversion E; subst. split; [reflexivity|].
      destruct (kw_pk (req_kwargs req)); reflexivity.
    - intros E; inversion E; subst. split; [reflexivity|].
      destruct (kw_pk (req_kwargs req)); reflexivity.
    - intros E; inversion E; subst. split; [reflexivity|].
      destruct (kw_pk (req_kwargs req)); reflexivity.
    - intros E; inversion E; subst. split; [reflexivity|].
      destruct (kw_pk (req_kwargs req)); reflexivity.
    - intros E; inversion E; subst. split; [reflexivity|].
      destruct (kw_pk (req_kwargs req)); reflexivity. }
  destruct Hw as [-> Ht]. split; [reflexivity|]. split; [exact Ht|].
  intros Hp. unfold dispatch, bind. rewrite Hg, query_eq, Hp. reflexivity.
Qed.

Lemma C6_witness :
  dispatch (H := Demo.demo) VTeamDelete Demo.carol_delete_request Demo.w0 =
  (Raise forbidden, Demo.w0).
Proof.
  apply (C6_permission_gate (H := Demo.demo) VTeamDelete
           Demo.carol_delete_request Demo.w0 (PermTeam Demo.team_alpha) Demo.w0).
  - vm_compute. reflexivity.
  - vm_compute. reflexivity.
Defined.

(** The claim fails as stated for the invite actions: the permission of a
    retraction is evaluated against the organiser of the request, not
    against the team of the invite. *)
Lemma C6_counterexample :
  get_permission_object VTeamUninvite Demo.uninvite_request Demo.w0 =
  (Ok (PermOrganiser Demo.alpha), Demo.w0)
  /\ ~ (exists t,
          fst (get_permission_object VTeamUninvite
                 Demo.uninvite_request Demo.w0) = Ok (PermTeam t)).
Proof.
  split; [reflexivity|]. intros [t Ht]. discriminate Ht.
Qed.

(** ** The invite sub-form *)

Lemma for_each_error {A} (f : A -> string) xs w :
  for_each xs (fun x => messages_error (f x)) w =
  (Ok tt, {| db := db w;
             messages := messages w ++ map (fun x => error_message (f x)) xs;
             log := log w |}).
Proof.
  revert w. induction xs as [|x xs IH]; intros w; simpl.
  - unfold ret. rewrite app_nil_r. destruct w; reflexivity.
  - unfold bind, messages_error. rewrite IH. simpl.
    rewrite <- app_assoc. reflexivity.
Qed.

Lemma bind_redirect_response {A} (m : M A) url w response w1 :
  bind m (fun _ => redirect url) w = (Ok response, w1) ->
  response = Redirect url.
Proof.
  unfold bind, redirect, ret.
  destruct (m w) as [[a|e] w2]; intros E; inversion E; reflexivity.
Qed.

Lemma create_invites_length team emails next :
  List.length (TeamInviteFormSpec.create_invites team emails next)
  = List.length emails.
Proof.
  revert next. induction emails as [|e l IH]; intros next; simpl;
    [reflexivity | now rewrite IH].
Qed.

Lemma create_invites_team team emails next :
  Forall (fun i => invite_team i = team)
         (TeamInviteFormSpec.create_invites team emails next).
Proof.
  revert next. induction emails as [|e l IH]; intros next; simpl;
    constructor; [reflexivity | apply IH].
Qed.

Lemma create_invites_emails team emails next :
  map invite_email (TeamInviteFormSpec.create_invites team emails next) = emails.
Proof.
  revert next. induction emails as [|e l IH]; intros next; simpl;
    [reflexivity | now rewrite IH].
Qed.

(** C7: a valid submission of the invite sub-form that names N distinct
    addresses adds exactly N invite records to the table, all of the
    target team and one per distinct address; the success message is the
    singular one for N = 1 and the plural one otherwise; the answer is a
    redirect to the request path. *)
Theorem C7_one_invite_per_distinct_address
    (C : Collaborators) addresses req w pk t :
  TeamDetail.invite_form_is_bound req = true ->
  @TeamInviteForm_errors C (req_POST req) (db w) = [] ->
  kw_pk (req_kwargs req) = Some pk ->
  get_object_or_404 team_pk (organiser_teams (req_organiser req) (db w)) pk
    = Ok t ->
  let distinct := nodup string_dec (addresses (req_POST req)) in
  let N := List.length distinct in
  (1 <= N)%nat ->
  exists created,
    TeamDetail.post (H := TeamInviteFormSpec.with_invite_form C addresses) req w =
    (Ok (Redirect (req_path req)),
     {| db := {| tbl_teams := tbl_teams (db w);
                 tbl_members := tbl_members (db w);
                 tbl_users := tbl_users (db w);
                 tbl_invites := tbl_invites (db w) ++ created;
                 tbl_social_apps := tbl_social_apps (db w) |};
        messages :=
          messages w ++
          [success_message
             (if Nat.eqb N 1 then "The invitation has been sent."
              else "The invitations have been sent.")];
        log := log w ++ [EvInviteFormSave (Some (team_pk t))] |})
    /\ List.length created = N
    /\ Forall (fun i => invite_team i = team_pk t) created
    /\ map invite_email created = distinct.
Proof.
  intros Hb He Hk Ht distinct N HN.
  exists (TeamInviteFormSpec.create_invites (team_pk t) distinct
            (TeamInviteFormSpec.next_invite_pk (db w))).
  split; [|split; [apply create_invites_length
                  |split; [apply create_invites_team
                          |apply create_invites_emails]]].
  unfold TeamDetail.post. rewrite Hb.
  unfold bind at 1. rewrite query_eq.
  change (@TeamInviteForm_errors
            (TeamInviteFormSpec.with_invite_form C addresses))
    with (@TeamInviteForm_errors C).
  rewrite He. cbn [errors_empty].
  unfold TeamMixin.team, TeamMixin._get_team. rewrite Hk.
  unfold bind. rewrite query_eq, Ht. unfold ret. rewrite call_eq.
  cbn [TeamInviteForm_save TeamInviteFormSpec.with_invite_form
       TeamInviteFormSpec.save fst snd option_map].
  fold distinct. rewrite create_invites_length. fold N.
  destruct (Nat.eqb N 1); reflexivity.
Qed.

Lemma C7_witness :
  exists created,
    db (snd (TeamDetail.post
               (H := TeamInviteFormSpec.with_invite_form Demo.demo
                       (Demo.field "invite-email"))
               Demo.invite_request Demo.w0))
    = {| tbl_teams := tbl_teams Demo.db0;
         tbl_members := tbl_members Demo.db0;
         tbl_users := tbl_users Demo.db0;
         tbl_invites := tbl_invites Demo.db0 ++ created;
         tbl_social_apps := tbl_social_apps Demo.db0 |}
    /\ List.length created = 2%nat.
Proof.
  destruct (C7_one_invite_per_distinct_address Demo.demo
              (Demo.field "invite-email") Demo.invite_request Demo.w0
              10 Demo.team_alpha)
    as [created [Hrun [Hlen _]]].
  - reflexivity.
  - reflexivity.
  - reflexivity.
  - reflexivity.
  - vm_compute. lia.
  - exists created. rewrite Hrun. split; [reflexivity | exact Hlen].
Defined.

(** C8: an invalid submission of the invite sub-form queues one error
    message for each entry of the form's errors, in order, leaves the
    database and the log of calls as they were, and is answered by a
    redirect to the request path; every response of the invite sub-form,
    valid or not, is that redirect. *)
Theorem C8_invalid_invite_form_only_reports `{Collaborators} req w :
  TeamDetail.invite_form_is_bound req = true ->
  (TeamInviteForm_errors (req_POST req) (db w) <> [] ->
   TeamDetail.post req w =
   (Ok (Redirect (req_path req)),
    {| db := db w;
       messages :=
         messages w ++
         map (fun error => error_message (String.concat newline (snd error)))
             (TeamInviteForm_errors (req_POST req) (db w));
       log := log w |}))
  /\ (forall response w1,
        TeamDetail.post req w = (Ok response, w1) ->
        response = Redirect (req_path req)).
Proof.
  intros Hb. unfold TeamDetail.post. rewrite Hb. split.
  - intros Hne. unfold bind at 1. rewrite query_eq.
    destruct (TeamInviteForm_errors (req_POST req) (db w)) as [|err errs] eqn:He;
      [contradiction|].
    cbn [errors_empty]. unfold bind. rewrite for_each_error. reflexivity.
  - intros response w1. unfold bind at 1. rewrite query_eq.
    apply bind_redirect_response.
Qed.

Lemma C8_witness :
  TeamDetail.post (H := Demo.demo) Demo.empty_invite_request Demo.w0 =
  (Ok (Redirect "/orga/organiser/alpha/teams/10/"),
   {| db := Demo.db0;
      messages := [error_message "This field is required."];
      log := [] |}).
Proof.
  rewrite (proj1 (C8_invalid_invite_form_only_reports (H := Demo.demo)
                    Demo.empty_invite_request Demo.w0 eq_refl)).
  - reflexivity.
  - discriminate.
Defined.

(** ** Removing an SSO client that does not exist *)

(** C9: a removal request whose provider id is the provider of no SSO
    client record queues the error "The key does not exist.", calls no
    deletion, changes no row, lets no exception out and is answered by a
    redirect to the request path. *)
Theorem C9_remove_missing_sso_client `{Collaborators} req w :
  is_form_bound req "remove_sso_client" = Ok true ->
  req_POST_form req = Some "remove_sso_client" ->
  (forall a, In a (tbl_social_apps (db w)) ->
             kw_organiser (req_kwargs req) <> Some (app_provider a)) ->
  OrganiserDetail.post req w =
  (Ok (Redirect (req_path req)),
   {| db := db w;
      messages := messages w ++ [error_message "The key does not exist."];
      log := log w |}).
Proof.
  intros Hb Hf Hn.
  assert (Hget : OrganiserDetail.SocialApp_objects_get
                   (kw_organiser (req_kwargs req)) (db w)
                 = Raise {| exc_class := DoesNotExist;
                            exc_str := "matching query does not exist." |}).
  { unfold OrganiserDetail.SocialApp_objects_get.
    rewrite filter_none; [reflexivity|].
    intros a Ha. destruct (kw_organiser (req_kwargs req)) as [p|] eqn:Hp;
      [|reflexivity].
    apply String.eqb_neq. intros Heq. apply (Hn a Ha). now rewrite Heq. }
  unfold OrganiserDetail.post, OrganiserDetail.post_body,
    OrganiserDetail.is_remove_sso_client_request, OrganiserDetail.form_is,
    OrganiserDetail.handle_remove_sso_client.
  unfold try_except, bind at 1 2. rewrite query_eq, Hb, Hf.
  unfold ret at 1. rewrite String.eqb_refl.
  unfold bind, try_except_class. rewrite query_eq, Hget.
  reflexivity.
Qed.

Lemma C9_witness :
  OrganiserDetail.post (H := Demo.demo) Demo.remove_sso_request Demo.w0 =
  (Ok (Redirect "/orga/organiser/alpha/"),
   {| db := Demo.db0;
      messages := [error_message "The key does not exist."];
      log := [] |}).
Proof.
  apply (C9_remove_missing_sso_client (H := Demo.demo)
           Demo.remove_sso_request Demo.w0).
  - reflexivity.
  - reflexivity.
  - intros a [<-|[]]. discriminate.
Defined.

(** ** Removing a user who is not on the team *)

Section MemberRemoval.
Context `{Collaborators}.

(** What [post] logs continues what its mutation has logged. *)
Lemma post_log_extends_mutation req w r w1 :
  TeamDelete.mutation req (add_event TxBegin w) = (r, w1) ->
  exists evs, log (snd (TeamDelete.post req w)) = (log w1 ++ evs)%list.
Proof.
  intros Em.
  unfold TeamDelete.post, bind, try_except, atomic.
  rewrite post_body_mutation. unfold bind at 1. rewrite Em.
  destruct r as [[]|e].
  - unfold bind, check_access_permissions. rewrite call_eq.
    destruct (check_access_permissions_impl (req_organiser req) (db w1))
      as [[ws|e] d2]; cbn [fst snd].
    + simpl_world. rewrite report_warnings_run. simpl_world.
      eexists. rewrite <- app_assoc. reflexivity.
    + simpl_world. destruct (view_get req (db w)); cbn [snd log];
        eexists; rewrite <- app_assoc; reflexivity.
  - simpl_world. destruct (view_get req (db w)); cbn [snd log];
      eexists; reflexivity.
Qed.

End MemberRemoval.

(** C10: when the team resolves but [user_pk] is the pk of none of its
    members, [TeamDelete.get_object] returns [None] and raises nothing;
    [post] then calls [team.members.remove] with that [None] inside its
    transaction. *)
Theorem C10_non_member_resolves_to_none `{Collaborators} req w pk upk t :
  kw_pk (req_kwargs req) = Some pk ->
  kw_user_pk (req_kwargs req) = Some upk ->
  get_object_or_404 team_pk (organiser_teams (req_organiser req) (db w)) pk
    = Ok t ->
  (forall u, In u (team_members t (db w)) -> user_pk u <> upk) ->
  TeamDelete.get_object req w = (Ok ObjNone, w)
  /\ TeamDelete.mutation req (add_event TxBegin w) =
     call (EvMembersRemove (team_pk t) ObjNone) (members_remove t ObjNone)
          (add_event TxBegin w)
  /\ exists evs,
       log (snd (TeamDelete.post req w)) =
       (log w ++ [TxBegin; EvMembersRemove (team_pk t) ObjNone] ++ evs)%list.
Proof.
  intros Hk Hu Ht Hn.
  assert (Hteam : forall w', db w' = db w ->
            TeamMixin._get_team req w' = (Ok (Some t), w')).
  { intros w' Hd. unfold TeamMixin._get_team. rewrite Hk.
    unfold bind. rewrite query_eq, Hd, Ht. reflexivity. }
  assert (Hobj : forall w', db w' = db w ->
            TeamDelete.get_object req w' = (Ok ObjNone, w')).
  { intros w' Hd. unfold TeamDelete.get_object, TeamMixin.get_object.
    unfold bind at 1. rewrite (Hteam w' Hd), Hu.
    unfold bind. rewrite query_eq, Hd.
    rewrite filter_none; [reflexivity|].
    intros u Hin. apply Z.eqb_neq. now apply Hn. }
  assert (Hmut : TeamDelete.mutation req (add_event TxBegin w) =
                 call (EvMembersRemove (team_pk t) ObjNone)
                      (members_remove t ObjNone) (add_event TxBegin w)).
  { unfold TeamDelete.mutation, TeamDelete.remove_member, TeamMixin.team.
    rewrite Hu. unfold bind at 1.
    rewrite (Hteam (add_event TxBegin w) eq_refl).
    unfold bind. rewrite (Hobj (add_event TxBegin w) eq_refl). reflexivity. }
  split; [apply Hobj; reflexivity|]. split; [exact Hmut|].
  rewrite call_eq in Hmut.
  destruct (post_log_extends_mutation _ _ _ _ Hmut) as [evs Hl].
  exists evs. rewrite Hl. unfold add_event. cbn [log].
  repeat rewrite <- app_assoc. reflexivity.
Qed.

Lemma C10_witness :
  TeamDelete.get_object Demo.remove_carol_request Demo.w0 = (Ok ObjNone, Demo.w0)
  /\ exists evs,
       log (snd (TeamDelete.post (H := Demo.demo)
                   Demo.remove_carol_request Demo.w0)) =
       ([TxBegin; EvMembersRemove 10 ObjNone] ++ evs)%list.
Proof.
  destruct (C10_non_member_resolves_to_none (H := Demo.demo)
              Demo.remove_carol_request Demo.w0 10 3 Demo.team_alpha)
    as [Hobj [_ Hlog]].
  - reflexivity.
  - reflexivity.
  - reflexivity.
  - intros u Hin. vm_compute in Hin.
    destruct Hin as [<-|[<-|[]]]; discriminate.
  - split; [exact Hobj | exact Hlog].
Defined.

(** * Further properties of the views *)

(** ** TeamDetail *)



(** An edit that changes nothing and draws no warning is silent: when the
    form reports no change and the check returns no warnings, no message
    at all is queued. *)
Theorem form_valid_unchanged_edit_is_silent `{Collaborators} req form t w d1 d2 :
  form_instance form = Some t ->
  team_pk t <> 0 ->
  TeamForm_has_changed form = false ->
  TeamForm_save form (db w) = (Ok tt, d1) ->
  check_access_permissions_impl (req_organiser req) d1 = (Ok [], d2) ->
  messages (snd (TeamDetail.form_valid req form w)) = messages w.
Proof.
  intros Hi Hpk Hch Hs Hc.
  assert (Hcr : TeamDetail.created form = false).
  { unfold TeamDetail.created. rewrite Hi. simpl.
    destruct (Z.eqb_spec (team_pk t) 0); [contradiction | reflexivity]. }
  unfold TeamDetail.form_valid.
  erewrite bind_ok.
  2:{ apply try_except_ok. erewrite bind_ok.
      2:{ eapply save_body_edit_ok; eassumption. }
      reflexivity. }
  cbv beta iota. rewrite Hcr, Hch.
  unfold bind, report_warnings, TeamDetail.super_form_valid, bind.
  simpl_world. rewrite call_eq. simpl_world.
  destruct (fst (TeamForm_save form d2)) as [[]|e]; reflexivity.
Qed.

Lemma form_valid_unchanged_edit_is_silent_witness :
  messages (snd (TeamDetail.form_valid (H := Demo.offline)
                   Demo.edit_request
                   {| form_instance := Some Demo.team_alpha;
                      form_data := [("name", "Alpha crew");
                                    ("can_change_teams", "on")] |}
                   Demo.w0)) = [].
Proof.
  eapply (form_valid_unchanged_edit_is_silent (H := Demo.offline)
            Demo.edit_request _ Demo.team_alpha Demo.w0).
  - reflexivity.
  - discriminate.
  - reflexivity.
  - vm_compute. reflexivity.
  - vm_compute. reflexivity.
Defined.

(** A POST of the invite sub-form never reaches the team form: whatever
    the outcome, the only call it can make is the save of the invite
    form; the team form is not saved and the invariant checker is not
    called. *)
Theorem invite_post_bypasses_team_form `{Collaborators} req w :
  TeamDetail.invite_form_is_bound req = true ->
  exists evs,
    log (snd (TeamDetail.post req w)) = (log w ++ evs)%list
    /\ (evs = [] \/ exists team, evs = [EvInviteFormSave team]).
Proof.
  intros Hb. unfold TeamDetail.post. rewrite Hb.
  unfold bind at 1. rewrite query_eq.
  destruct (errors_empty (TeamInviteForm_errors (req_POST req) (db w))).
  - unfold bind at 1 2.
    destruct (TeamMixin.team req w) as [[team|e] w2] eqn:Et;
      unfold TeamMixin.team in Et; apply get_team_pure in Et; subst w2.
    + unfold bind. rewrite call_eq.
      destruct (TeamInviteForm_save team (req_POST req) (db w))
        as [[invites|e] d]; cbn [fst snd].
      * exists [EvInviteFormSave (option_map team_pk team)].
        split; [|right; now eexists].
        destruct (Nat.eqb (List.length invites) 1); reflexivity.
      * exists [EvInviteFormSave (option_map team_pk team)].
        split; [reflexivity | right; now eexists].
    + exists []. rewrite app_nil_r. split; [reflexivity | now left].
  - unfold bind. rewrite for_each_error. simpl_world.
    exists []. rewrite app_nil_r. split; [reflexivity | now left].
Qed.

Lemma invite_post_bypasses_team_form_witness :
  exists evs,
    log (snd (TeamDetail.post (H := Demo.demo) Demo.invite_request Demo.w0))
      = evs
    /\ (evs = [] \/ exists team, evs = [EvInviteFormSave team]).
Proof.
  destruct (invite_post_bypasses_team_form (H := Demo.demo)
              Demo.invite_request Demo.w0 eq_refl) as [evs [Hl Hevs]].
  exists evs. split; [exact Hl | exact Hevs].
Defined.

(** A POST of the team form that does not validate writes nothing: no
    call is made, no message is queued, and the answer is the page
    rendered again. *)
Theorem invalid_team_form_changes_nothing `{Collaborators} req w obj :
  TeamDetail.invite_form_is_bound req = false ->
  TeamDetail.get_object req w = (Ok obj, w) ->
  TeamForm_errors {| form_instance := obj; form_data := req_POST req |} (db w)
    <> [] ->
  TeamDetail.post req w = (view_get req (db w), w).
Proof.
  intros Hb Ho He. unfold TeamDetail.post. rewrite Hb.
  unfold TeamDetail.super_post, ProcessFormView_post.
  unfold bind at 1 2. rewrite Ho. unfold ret at 1.
  unfold bind. rewrite query_eq.
  destruct (TeamForm_errors _ (db w)) as [|x l]; [contradiction|].
  cbn [errors_empty]. reflexivity.
Qed.

Lemma invalid_team_form_changes_nothing_witness :
  TeamDetail.post (H := Demo.offline) Demo.edit_request Demo.w0
  = (Ok (Render "page"), Demo.w0).
Proof.
  apply (invalid_team_form_changes_nothing (H := Demo.offline)
           Demo.edit_request Demo.w0 (Some Demo.team_alpha)).
  - reflexivity.
  - reflexivity.
  - discriminate.
Defined.

(** ** TeamDelete *)

Section TeamDeleteRuns.
Context `{Collaborators}.

(** [post] after its mutation has returned, by the outcome of the check. *)
Lemma post_after_mutation req w w1 :
  TeamDelete.mutation req (add_event TxBegin w) = (Ok tt, w1) ->
  TeamDelete.post req w =
  match check_access_permissions_impl (req_organiser req) (db w1) with
  | (Ok warnings, d2) =>
      (Ok (Redirect (orga_urls_base (req_organiser req))),
       {| db := d2;
          messages :=
            messages w ++
            [success_message
               (match kw_user_pk (req_kwargs req) with
                | Some _ => "The member was removed from the team."
                | None => "The team was removed."
                end)] ++
            map warning_message warnings;
          log := log w1 ++ [EvCheckAccess (organiser_pk (req_organiser req));
                            TxCommit] |})
  | (Raise e, _) =>
      (view_get req (db w),
       {| db := db w;
          messages := messages w ++ [error_message (exc_str e)];
          log := log w1 ++ [EvCheckAccess (organiser_pk (req_organiser req));
                            TxRollback] |})
  end.
Proof.
  intros Em.
  destruct (mutation_shape _ _ _ _ Em) as [Hm _].
  unfold add_event in Hm. cbn [messages] in Hm.
  unfold TeamDelete.post, bind, try_except, atomic.
  rewrite post_body_mutation. unfold bind at 1. rewrite Em.
  unfold bind, check_access_permissions. rewrite call_eq.
  destruct (check_access_permissions_impl (req_organiser req) (db w1))
    as [[ws|e] d2]; cbn [fst snd].
  - simpl_world. rewrite report_warnings_run. simpl_world.
    rewrite Hm. unfold success_message.
    repeat rewrite <- app_assoc. reflexivity.
  - simpl_world. rewrite Hm. unfold error_message.
    destruct (view_get req (db w)); repeat rewrite <- app_assoc; reflexivity.
Qed.

End TeamDeleteRuns.

(** A completed deletion or removal whose check returns: the transaction
    commits, the success message of the branch is queued before the
    warnings, and the answer is a redirect to the organiser's base URL. *)
Theorem delete_post_success `{Collaborators} req w w1 warnings d2 :
  TeamDelete.mutation req (add_event TxBegin w) = (Ok tt, w1) ->
  check_access_permissions_impl (req_organiser req) (db w1) = (Ok warnings, d2) ->
  TeamDelete.post req w =
  (Ok (Redirect (orga_urls_base (req_organiser req))),
   {| db := d2;
      messages :=
        messages w ++
        [success_message
           (match kw_user_pk (req_kwargs req) with
            | Some _ => "The member was removed from the team."
            | None => "The team was removed."
            end)] ++
        map warning_message warnings;
      log := log w1 ++ [EvCheckAccess (organiser_pk (req_organiser req));
                        TxCommit] |}).
Proof.
  intros Em Hc. rewrite (post_after_mutation _ _ _ Em), Hc. reflexivity.
Qed.

Lemma delete_post_success_witness :
  TeamDelete.post (H := Demo.demo) Demo.delete_request Demo.w0 =
  (Ok (Redirect "/orga/organiser/alpha/"),
   {| db := {| tbl_teams := [Demo.team_beta];
               tbl_members := [(20, 3)];
               tbl_users := tbl_users Demo.db0;
               tbl_invites := [Demo.invite_beta];
               tbl_social_apps := tbl_social_apps Demo.db0 |};
      messages :=
        [success_message "The team was removed.";
         warning_message
           "Nobody on your teams has the permissions to change teams."];
      log := [TxBegin; EvDelete (ObjTeam Demo.team_alpha); EvCheckAccess 1;
              TxCommit] |}).
Proof.
  rewrite (delete_post_success (H := Demo.demo) Demo.delete_request Demo.w0
             (snd (TeamDelete.mutation (H := Demo.demo) Demo.delete_request
                     (add_event TxBegin Demo.w0)))
             ["Nobody on your teams has the permissions to change teams."]
             {| tbl_teams := [Demo.team_beta];
                tbl_members := [(20, 3)];
                tbl_users := tbl_users Demo.db0;
                tbl_invites := [Demo.invite_beta];
                tbl_social_apps := tbl_social_apps Demo.db0 |}).
  - vm_compute. reflexivity.
  - vm_compute. reflexivity.
  - vm_compute. reflexivity.
Defined.

(** When the invariant checker raises after a completed deletion or
    removal, the mutation is undone: the database is the one before the
    request, the exception's text is queued as an error, no success
    message is queued, and the answer is the page of [self.get]. *)
Theorem delete_post_check_raises_rolls_back `{Collaborators} req w w1 e d2 :
  TeamDelete.mutation req (add_event TxBegin w) = (Ok tt, w1) ->
  check_access_permissions_impl (req_organiser req) (db w1) = (Raise e, d2) ->
  TeamDelete.post req w =
  (view_get req (db w),
   {| db := db w;
      messages := messages w ++ [error_message (exc_str e)];
      log := log w1 ++ [EvCheckAccess (organiser_pk (req_organiser req));
                        TxRollback] |}).
Proof.
  intros Em Hc. rewrite (post_after_mutation _ _ _ Em), Hc. reflexivity.
Qed.

Lemma delete_post_check_raises_rolls_back_witness :
  TeamDelete.post (H := Demo.strict) Demo.delete_request Demo.w0 =
  (Ok (Render "page"),
   {| db := Demo.db0;
      messages := [error_message (exc_str Demo.orphan_error)];
      log := [TxBegin; EvDelete (ObjTeam Demo.team_alpha); EvCheckAccess 1;
              TxRollback] |}).
Proof.
  rewrite (delete_post_check_raises_rolls_back (H := Demo.strict)
             Demo.delete_request Demo.w0
             (snd (TeamDelete.mutation (H := Demo.strict) Demo.delete_request
                     (add_event TxBegin Demo.w0)))
             Demo.orphan_error
             (db (snd (TeamDelete.mutation (H := Demo.strict)
                         Demo.delete_request (add_event TxBegin Demo.w0))))).
  - vm_compute. reflexivity.
  - vm_compute. reflexivity.
  - vm_compute. reflexivity.
Defined.

(** [TeamDelete.post] lets an exception out only when [self.get] raises
    it while answering a failed request. *)
Theorem delete_post_raises_only_from_get `{Collaborators} req w e :
  fst (TeamDelete.post req w) = Raise e ->
  view_get req (db w) = Raise e.
Proof.
  unfold TeamDelete.post, bind, try_except, atomic.
  destruct (TeamDelete.post_body req (add_event TxBegin w)) as [[ws|e'] w1].
  - unfold ret at 1. cbv beta iota. rewrite report_warnings_run.
    simpl_world. intros E. discriminate E.
  - simpl_world.
    destruct (view_get req (db w)) as [r|e'']; cbn [fst]; intros E;
      [discriminate E | exact E].
Qed.

Lemma delete_post_raises_only_from_get_witness :
  view_get (Collaborators := Demo.broken_page) Demo.delete_request Demo.db0
  = Raise {| exc_class := OtherException; exc_str := "TemplateDoesNotExist" |}.
Proof.
  apply (delete_post_raises_only_from_get (H := Demo.broken_page)
           Demo.delete_request Demo.w0).
  vm_compute. reflexivity.
Defined.



(** With [user_pk] among the kwargs, [get_object] returns only members of
    the resolved team: when a member has that pk, the object is a user
    with that pk who is on the team. *)
Theorem delete_get_object_is_member req w pk upk t :
  kw_pk (req_kwargs req) = Some pk ->
  kw_user_pk (req_kwargs req) = Some upk ->
  get_object_or_404 team_pk (organiser_teams (req_organiser req) (db w)) pk
    = Ok t ->
  (exists u, In u (team_members t (db w)) /\ user_pk u = upk) ->
  exists u,
    TeamDelete.get_object req w = (Ok (ObjUser u), w)
    /\ user_pk u = upk
    /\ In u (team_members t (db w)).
Proof.
  intros Hk Hu Ht [u0 [Hin0 Hpk0]].
  unfold TeamDelete.get_object, TeamMixin.get_object, TeamMixin._get_team.
  rewrite Hk, Hu. unfold bind. rewrite query_eq, Ht. unfold ret at 1.
  rewrite query_eq.
  destruct (filter (fun u => user_pk u =? upk) (team_members t (db w)))
    as [|u l] eqn:Hf.
  - exfalso.
    assert (Hin : In u0 (filter (fun u => user_pk u =? upk)
                                (team_members t (db w)))).
    { apply filter_In. split; [exact Hin0 | now apply Z.eqb_eq]. }
    rewrite Hf in Hin. exact Hin.
  - assert (Hin : In u (filter (fun u => user_pk u =? upk)
                               (team_members t (db w))))
      by (rewrite Hf; now left).
    apply filter_In in Hin. destruct Hin as [Hin Hpk].
    exists u. split; [reflexivity|].
    split; [now apply Z.eqb_eq | exact Hin].
Qed.

Lemma delete_get_object_is_member_witness :
  exists u,
    TeamDelete.get_object Demo.remove_bob_request Demo.w0
      = (Ok (ObjUser u), Demo.w0)
    /\ user_pk u = 2
    /\ In u (team_members Demo.team_alpha Demo.db0).
Proof.
  apply (delete_get_object_is_member Demo.remove_bob_request Demo.w0 10 2
           Demo.team_alpha).
  - reflexivity.
  - reflexivity.
  - reflexivity.
  - exists Demo.bob. split; [vm_compute; tauto | reflexivity].
Defined.

(** The confirmation text of a member removal needs the member: for a
    [user_pk] that is the pk of no member of the team, [get_object()]
    is [None] and [action_object_name] fails with [AttributeError]. *)
Theorem action_object_name_non_member_fails req w pk upk t :
  kw_pk (req_kwargs req) = Some pk ->
  kw_user_pk (req_kwargs req) = Some upk ->
  get_object_or_404 team_pk (organiser_teams (req_organiser req) (db w)) pk
    = Ok t ->
  (forall u, In u (team_members t (db w)) -> user_pk u <> upk) ->
  TeamDelete.action_object_name req w = (Raise attribute_error, w).
Proof.
  intros Hk Hu Ht Hn.
  unfold TeamDelete.action_object_name. rewrite Hu.
  unfold bind at 1.
  unfold TeamDelete.get_object, TeamMixin.get_object, TeamMixin._get_team.
  rewrite Hk, Hu. unfold bind. rewrite query_eq, Ht. unfold ret at 1.
  rewrite query_eq.
  rewrite filter_none; [reflexivity|].
  intros u Hin. apply Z.eqb_neq. now apply Hn.
Qed.

Lemma action_object_name_non_member_fails_witness :
  TeamDelete.action_object_name Demo.remove_carol_request Demo.w0
  = (Raise attribute_error, Demo.w0).
Proof.
  apply (action_object_name_non_member_fails Demo.remove_carol_request
           Demo.w0 10 3 Demo.team_alpha).
  - reflexivity.
  - reflexivity.
  - reflexivity.
  - intros u Hin. vm_compute in Hin.
    destruct Hin as [<-|[<-|[]]]; discriminate.
Defined.

(** The cached property [member] is never the team: on a team deletion
    page (no [user_pk]) it is [None], and in every case it is a user or
    [None]. *)
Theorem member_is_never_the_team req w obj w1 :
  TeamDelete.member req w = (Ok obj, w1) ->
  (kw_user_pk (req_kwargs req) = None -> obj = ObjNone)
  /\ (obj = ObjNone \/ exists u, obj = ObjUser u).
Proof.
  unfold TeamDelete.member, TeamDelete.get_object, TeamMixin.get_object,
    TeamMixin.team, bind.
  destruct (TeamMixin._get_team req w) as [[team|e] w2] eqn:Et;
    [|intros E; discriminate E].
  pose proof (get_team_pure _ _ _ _ Et) as ->.
  destruct (kw_user_pk (req_kwargs req)) as [upk|].
  - destruct team as [t|]; [|intros E; discriminate E].
    rewrite query_eq. unfold ret at 1. rewrite Et. unfold ret.
    destruct (queryset_first _) as [u|]; cbn; intros E; inversion E; subst.
    + split; [intros F; discriminate F|]. right. now exists u.
    + split; [reflexivity | now left].
  - unfold ret at 1. rewrite Et. unfold ret.
    destruct team as [t|]; cbn; intros E; inversion E; subst.
    + unfold TeamDelete.obj_ne. rewrite Z.eqb_refl. cbn [negb].
      split; [reflexivity | now left].
    + split; [reflexivity | now left].
Qed.

Lemma member_is_never_the_team_witness :
  fst (TeamDelete.member Demo.delete_request Demo.w0) = Ok ObjNone.
Proof.
  destruct (TeamDelete.member Demo.delete_request Demo.w0) as [r w1] eqn:E.
  assert (Hr : exists obj, r = Ok obj).
  { vm_compute in E. inversion E. now eexists. }
  destruct Hr as [obj ->].
  destruct (member_is_never_the_team _ _ _ _ E) as [Hnone _].
  cbn [fst]. rewrite (Hnone eq_refl). reflexivity.
Defined.

(** ** Invites *)

(** A pk that is the pk of no invite at all: retraction and resending
    both fail with [Http404] before any call, message or write. *)
Theorem invite_unknown_pk_is_404 `{Collaborators} req w pk :
  kw_pk (req_kwargs req) = Some pk ->
  (forall i, In i (tbl_invites (db w)) -> invite_pk i <> pk) ->
  TeamUninvite.post req w = (Raise http404, w)
  /\ TeamResend.post req w = (Raise http404, w).
Proof.
  intros Hk Hn.
  unfold TeamUninvite.post, TeamResend.post, TeamUninvite.get_object,
    TeamResend.get_object, SingleObjectMixin_get_object, bind.
  rewrite Hk, query_eq.
  rewrite get_object_or_404_missing by exact Hn. split; reflexivity.
Qed.

Lemma invite_unknown_pk_is_404_witness :
  TeamUninvite.post (H := Demo.demo) Demo.uninvite_unknown_request Demo.w0
  = (Raise http404, Demo.w0).
Proof.
  apply (invite_unknown_pk_is_404 (H := Demo.demo)
           Demo.uninvite_unknown_request Demo.w0 99).
  - reflexivity.
  - intros i Hi. vm_compute in Hi.
    destruct Hi as [<-|[<-|[]]]; discriminate.
Defined.

(** [TeamResend.post] sends the invite that the bare pk lookup finds,
    whatever organiser the request belongs to; it makes that one call,
    queues its success message only when [send()] has returned, and lets
    an exception of [send()] out of the view. *)
Theorem resend_post_sends_found_invite `{Collaborators} req w pk i :
  kw_pk (req_kwargs req) = Some pk ->
  filter (fun x => invite_pk x =? pk) (tbl_invites (db w)) = [i] ->
  TeamResend.post req w =
  (match fst (TeamInvite_send i (db w)) with
   | Ok _ => Ok (Redirect (orga_urls_base (req_organiser req)))
   | Raise e => Raise e
   end,
   {| db := snd (TeamInvite_send i (db w));
      messages :=
        messages w ++
        match fst (TeamInvite_send i (db w)) with
        | Ok _ => [success_message "The team invitation was sent again."]
        | Raise _ => []
        end;
      log := log w ++ [EvInviteSend (invite_pk i)] |}).
Proof.
  intros Hk Hf.
  unfold TeamResend.post, TeamResend.get_object, SingleObjectMixin_get_object.
  rewrite Hk. unfold bind at 1. rewrite query_eq.
  unfold get_object_or_404. rewrite Hf. cbn [queryset_get].
  unfold bind. rewrite call_eq.
  destruct (TeamInvite_send i (db w)) as [[[]|e] d]; cbn [fst snd];
    simpl_world; [reflexivity|].
  rewrite app_nil_r. reflexivity.
Qed.

Lemma resend_post_sends_found_invite_witness :
  TeamResend.post (H := Demo.offline) Demo.uninvite_foreign_request Demo.w0 =
  (Raise {| exc_class := SendMailException; exc_str := "Connection refused" |},
   {| db := Demo.db0; messages := []; log := [EvInviteSend 7] |}).
Proof.
  rewrite (resend_post_sends_found_invite (H := Demo.offline)
             Demo.uninvite_foreign_request Demo.w0 7 Demo.invite_beta).
  - reflexivity.
  - reflexivity.
  - reflexivity.
Defined.

(** ** TeamResetPassword *)

(** A password reset resolves its user among the members of the team: a
    [user_pk] that is the pk of no member fails with [Http404], and
    [reset_password] is not called. *)
Theorem reset_password_non_member_is_404 `{Collaborators} req w pk upk t :
  kw_pk (req_kwargs req) = Some pk ->
  kw_user_pk (req_kwargs req) = Some upk ->
  get_object_or_404 team_pk (organiser_teams (req_organiser req) (db w)) pk
    = Ok t ->
  (forall u, In u (team_members t (db w)) -> user_pk u <> upk) ->
  TeamResetPassword.post req w = (Raise http404, w).
Proof.
  intros Hk Hu Ht Hn.
  unfold TeamResetPassword.post, TeamResetPassword.user,
    TeamResetPassword.team.
  rewrite Hk, Hu. unfold bind, try_except_class.
  rewrite query_eq, Ht. rewrite query_eq.
  rewrite get_object_or_404_missing by exact Hn. reflexivity.
Qed.

Lemma reset_password_non_member_is_404_witness :
  TeamResetPassword.post (H := Demo.demo) Demo.reset_carol_request Demo.w0
  = (Raise http404, Demo.w0).
Proof.
  apply (reset_password_non_member_is_404 (H := Demo.demo)
           Demo.reset_carol_request Demo.w0 10 3 Demo.team_alpha).
  - reflexivity.
  - reflexivity.
  - reflexivity.
  - intros u Hin. vm_compute in Hin.
    destruct Hin as [<-|[<-|[]]]; discriminate.
Defined.

(** A password reset that fails: a [SendMailException] is turned into the
    failure phrase and the redirect to the organiser's base URL; an
    exception of any other class leaves the view.  In both cases what
    [reset_password] has written stays, as there is no transaction. *)
Theorem reset_password_failure `{Collaborators} req w u e d :
  TeamResetPassword.user req w = (Ok u, w) ->
  User_reset_password u (req_user req) (db w) = (Raise e, d) ->
  TeamResetPassword.post req w =
  if ExcClass_eqb (exc_class e) SendMailException
  then (Ok (Redirect (orga_urls_base (req_organiser req))),
        {| db := d;
           messages := messages w ++ [error_message phrase_password_reset_fail];
           log := log w ++ [EvResetPassword (user_pk u)] |})
  else (Raise e,
        {| db := d; messages := messages w;
           log := log w ++ [EvResetPassword (user_pk u)] |}).
Proof.
  intros Hu Hr.
  unfold TeamResetPassword.post, try_except_class.
  unfold bind at 1 2. rewrite Hu.
  unfold bind. rewrite call_eq, Hr. cbn [fst snd].
  destruct (ExcClass_eqb (exc_class e) SendMailException); reflexivity.
Qed.

Lemma reset_password_failure_witness :
  TeamResetPassword.post (H := Demo.offline) Demo.reset_bob_request Demo.w0 =
  (Ok (Redirect "/orga/organiser/alpha/"),
   {| db := Demo.db0;
      messages := [error_message "The password could not be reset."];
      log := [EvResetPassword 2] |}).
Proof.
  rewrite (reset_password_failure (H := Demo.offline) Demo.reset_bob_request
             Demo.w0 Demo.bob
             {| exc_class := SendMailException;
                exc_str := "Connection refused" |}
             Demo.db0).
  - reflexivity.
  - reflexivity.
  - reflexivity.
Defined.

(** ** OrganiserDetail *)

Section OrganiserDetailRuns.
Context `{Collaborators}.

(** A request whose [form] field is ["sso_client"] is no removal
    request, whatever [is_form_bound] says about the removal form. *)
Lemma sso_form_is_no_removal req w b :
  req_POST_form req = Some "sso_client" ->
  is_form_bound req "remove_sso_client" = Ok b ->
  OrganiserDetail.is_remove_sso_client_request req w = (Ok false, w).
Proof.
  intros Hf Hb.
  unfold OrganiserDetail.is_remove_sso_client_request, OrganiserDetail.form_is,
    bind.
  rewrite query_eq, Hb, Hf. destruct b; reflexivity.
Qed.

(** The SSO client form of a bound ["sso_client"] submission. *)
Lemma sso_client_form_bound req w :
  req_POST_form req = Some "sso_client" ->
  is_form_bound req "sso_client" = Ok true ->
  OrganiserDetail.sso_client_form req w =
  (Ok {| sso_provider_id := kw_organiser (req_kwargs req);
         sso_data := Some (req_POST req) |}, w).
Proof.
  intros Hf Hb.
  unfold OrganiserDetail.sso_client_form, OrganiserDetail.form_is, bind.
  rewrite Hf.
  change (String.eqb "sso_client" "remove_sso_client") with false.
  cbv iota. rewrite query_eq, Hb. reflexivity.
Qed.

End OrganiserDetailRuns.

(** Removing an SSO client that exists: [delete()] is called on the one
    record of the provider, and when it returns no message at all is
    queued; the answer is a redirect to the request path. *)
Theorem remove_sso_client_existing_is_silent `{Collaborators} req w a d :
  is_form_bound req "remove_sso_client" = Ok true ->
  req_POST_form req = Some "remove_sso_client" ->
  OrganiserDetail.SocialApp_objects_get (kw_organiser (req_kwargs req)) (db w)
    = Ok a ->
  Model_delete (ObjSocialApp a) (db w) = (Ok tt, d) ->
  OrganiserDetail.post req w =
  (Ok (Redirect (req_path req)),
   {| db := d; messages := messages w;
      log := log w ++ [EvDelete (ObjSocialApp a)] |}).
Proof.
  intros Hb Hf Hg Hd.
  unfold OrganiserDetail.post, OrganiserDetail.post_body,
    OrganiserDetail.is_remove_sso_client_request, OrganiserDetail.form_is,
    OrganiserDetail.handle_remove_sso_client.
  unfold try_except, bind at 1 2. rewrite query_eq, Hb, Hf.
  unfold ret at 1. rewrite String.eqb_refl.
  unfold bind, try_except_class, delete. rewrite query_eq, Hg.
  rewrite call_eq, Hd. reflexivity.
Qed.

Lemma remove_sso_client_existing_is_silent_witness :
  OrganiserDetail.post (H := Demo.demo) Demo.remove_sso_request Demo.w_sso =
  (Ok (Redirect "/orga/organiser/alpha/"),
   {| db := Demo.db0; messages := [];
      log := [EvDelete (ObjSocialApp Demo.alpha_app)] |}).
Proof.
  apply (remove_sso_client_existing_is_silent (H := Demo.demo)
           Demo.remove_sso_request Demo.w_sso Demo.alpha_app Demo.db0).
  - reflexivity.
  - reflexivity.
  - reflexivity.
  - reflexivity.
Defined.

(** Removing an SSO client whose provider has more than one record:
    [get()] raises [MultipleObjectsReturned], which the [except
    DoesNotExist] branch does not handle; nothing is deleted, and the
    boundary of [post] reports the generic error and redirects. *)
Theorem remove_sso_client_ambiguous_deletes_nothing
    `{Collaborators} req w p a b rest :
  is_form_bound req "remove_sso_client" = Ok true ->
  req_POST_form req = Some "remove_sso_client" ->
  kw_organiser (req_kwargs req) = Some p ->
  filter (fun x => String.eqb (app_provider x) p) (tbl_social_apps (db w))
    = a :: b :: rest ->
  exists e,
    exc_class e = MultipleObjectsReturned
    /\ OrganiserDetail.post req w =
       (Ok (Redirect (req_path req)),
        {| db := db w;
           messages :=
             messages w ++ [error_message ("An error occurred: " ++ exc_str e)];
           log := log w |}).
Proof.
  intros Hb Hf Hp Hflt.
  eexists. split; [|].
  2:{ unfold OrganiserDetail.post, OrganiserDetail.post_body,
        OrganiserDetail.is_remove_sso_client_request, OrganiserDetail.form_is,
        OrganiserDetail.handle_remove_sso_client.
      unfold try_except, bind at 1 2. rewrite query_eq, Hb, Hf.
      unfold ret at 1. rewrite String.eqb_refl.
      unfold bind, try_except_class. rewrite query_eq.
      unfold OrganiserDetail.SocialApp_objects_get. rewrite Hp, Hflt.
      cbn [queryset_get exc_class ExcClass_eqb]. reflexivity. }
  reflexivity.
Qed.

Lemma remove_sso_client_ambiguous_deletes_nothing_witness :
  exists e,
    exc_class e = MultipleObjectsReturned
    /\ OrganiserDetail.post (H := Demo.demo) Demo.remove_sso_request
         Demo.w_sso_twice =
       (Ok (Redirect "/orga/organiser/alpha/"),
        {| db := db Demo.w_sso_twice;
           messages := [error_message ("An error occurred: " ++ exc_str e)];
           log := [] |}).
Proof.
  apply (remove_sso_client_ambiguous_deletes_nothing (H := Demo.demo)
           Demo.remove_sso_request Demo.w_sso_twice "alpha" Demo.alpha_app
           {| app_pk := 3; app_provider := "alpha" |} []).
  - reflexivity.
  - reflexivity.
  - reflexivity.
  - reflexivity.
Defined.

(** An SSO client submission that does not validate is not answered as
    one: [is_sso_client_request] is false for it, and [post] handles the
    request as an ordinary save of the organiser settings. *)
Theorem invalid_sso_form_falls_through `{Collaborators} req w b :
  req_POST_form req = Some "sso_client" ->
  is_form_bound req "remove_sso_client" = Ok b ->
  is_form_bound req "sso_client" = Ok true ->
  SSOClientForm_errors
    {| sso_provider_id := kw_organiser (req_kwargs req);
       sso_data := Some (req_POST req) |} (db w) <> [] ->
  OrganiserDetail.post_body req w = OrganiserDetail.super_post req w.
Proof.
  intros Hf Hr Hs He.
  unfold OrganiserDetail.post_body. unfold bind at 1.
  rewrite (sso_form_is_no_removal _ _ _ Hf Hr).
  unfold bind at 1.
  unfold OrganiserDetail.is_sso_client_request, OrganiserDetail.form_is.
  unfold bind at 1. rewrite query_eq, Hs, Hf.
  rewrite String.eqb_refl.
  unfold bind at 1. rewrite (sso_client_form_bound _ _ Hf Hs).
  unfold OrganiserDetail.sso_client_form_is_valid. cbn [sso_data].
  rewrite query_eq.
  destruct (SSOClientForm_errors _ (db w)) as [|x l]; [contradiction|].
  reflexivity.
Qed.

Lemma invalid_sso_form_falls_through_witness :
  OrganiserDetail.post_body (H := Demo.offline) Demo.sso_request Demo.w0
  = OrganiserDetail.super_post (H := Demo.offline) Demo.sso_request Demo.w0.
Proof.
  apply (invalid_sso_form_falls_through (H := Demo.offline)
           Demo.sso_request Demo.w0 false).
  - reflexivity.
  - reflexivity.
  - reflexivity.
  - discriminate.
Defined.

(** A valid SSO client submission is always answered by a redirect to the
    request path.  When [save] returns, "Saved!" is queued; when it
    raises, the error is logged and queued as "An error occurred: ..."
    and "Saved!" is not queued.  What [save] has written stays. *)
Theorem sso_client_save_outcome `{Collaborators} req w b :
  req_POST_form req = Some "sso_client" ->
  is_form_bound req "remove_sso_client" = Ok b ->
  is_form_bound req "sso_client" = Ok true ->
  let form := {| sso_provider_id := kw_organiser (req_kwargs req);
                 sso_data := Some (req_POST req) |} in
  let organiser := kw_organiser (req_kwargs req) in
  SSOClientForm_errors form (db w) = [] ->
  OrganiserDetail.post req w =
  (Ok (Redirect (req_path req)),
   {| db := snd (SSOClientForm_save form organiser (db w));
      messages :=
        messages w ++
        match fst (SSOClientForm_save form organiser (db w)) with
        | Ok _ => [success_message "Saved!"]
        | Raise e => [error_message ("An error occurred: " ++ exc_str e)]
        end;
      log :=
        log w ++
        EvSSOClientSave organiser ::
        match fst (SSOClientForm_save form organiser (db w)) with
        | Ok _ => []
        | Raise e =>
            [EvLoggerError
               ("Error saving SSO client for organiser "
                ++ OrganiserDetail.str_option organiser ++ ": " ++ exc_str e)]
        end |}).
Proof.
  intros Hf Hr Hs form organiser He.
  unfold OrganiserDetail.post, try_except, OrganiserDetail.post_body.
  unfold bind at 1.
  rewrite (sso_form_is_no_removal _ _ _ Hf Hr).
  unfold bind at 1.
  unfold OrganiserDetail.is_sso_client_request, OrganiserDetail.form_is.
  unfold bind at 1. rewrite query_eq, Hs, Hf.
  rewrite String.eqb_refl.
  unfold bind at 1. rewrite (sso_client_form_bound _ _ Hf Hs).
  unfold OrganiserDetail.sso_client_form_is_valid. cbn [sso_data].
  rewrite query_eq. fold form. rewrite He. cbn [errors_empty].
  unfold OrganiserDetail.handle_sso_client, OrganiserDetail.save_sso_client.
  unfold bind at 1. unfold try_except. unfold bind at 1.
  rewrite (sso_client_form_bound _ _ Hf Hs). fold form.
  unfold bind at 1. rewrite call_eq. fold organiser.
  destruct (SSOClientForm_save form organiser (db w)) as [[[]|e] d];
    cbn [fst snd].
  - unfold OrganiserDetail.get_success_url, bind. simpl_world. reflexivity.
  - unfold bind. rewrite call_eq. simpl_world.
    rewrite <- app_assoc. reflexivity.
Qed.

Lemma sso_client_save_outcome_witness :
  OrganiserDetail.post (H := Demo.failing) Demo.sso_request Demo.w0 =
  (Ok (Redirect "/orga/organiser/alpha/"),
   {| db := Demo.db0;
      messages :=
        [error_message
           ("An error occurred: " ++ exc_str Demo.protected_error)];
      log :=
        [EvSSOClientSave (Some "alpha");
         EvLoggerError
           ("Error saving SSO client for organiser alpha: "
            ++ exc_str Demo.protected_error)] |}).
Proof.
  rewrite (sso_client_save_outcome (H := Demo.failing) Demo.sso_request
             Demo.w0 false).
  - reflexivity.
  - reflexivity.
  - reflexivity.
  - reflexivity.
  - reflexivity.
Defined.

(** An ordinary, valid save of the organiser settings: the form is saved
    once, without a transaction.  When [save] returns, "Saved!" is queued;
    when it raises, the boundary of [post] queues the generic error and
    what [save] has written stays.  Either way the answer is a redirect
    to the request path. *)
Theorem organiser_settings_save_outcome `{Collaborators} req w :
  is_form_bound req "remove_sso_client" = Ok false ->
  is_form_bound req "sso_client" = Ok false ->
  OrganiserForm_errors (req_organiser req) (req_POST req) (db w) = [] ->
  let save := OrganiserForm_save (req_organiser req) (req_POST req) (db w) in
  OrganiserDetail.post req w =
  (Ok (Redirect (req_path req)),
   {| db := snd save;
      messages :=
        messages w ++
        match fst save with
        | Ok _ => [success_message "Saved!"]
        | Raise e => [error_message ("An error occurred: " ++ exc_str e)]
        end;
      log := log w ++ [EvOrganiserFormSave (organiser_pk (req_organiser req))] |}).
Proof.
  intros Hr Hs He save.
  unfold OrganiserDetail.post, try_except, OrganiserDetail.post_body,
    OrganiserDetail.is_remove_sso_client_request,
    OrganiserDetail.is_sso_client_request.
  unfold bind at 1 2. rewrite query_eq, Hr. unfold ret at 1.
  unfold bind at 1 2. rewrite query_eq, Hs. unfold ret at 1.
  unfold OrganiserDetail.super_post, ProcessFormView_post,
    OrganiserDetail.get_object.
  unfold bind at 1. unfold ret at 1.
  unfold bind at 1. rewrite query_eq, He. cbn [errors_empty].
  unfold OrganiserDetail.form_valid, OrganiserDetail.get_object.
  unfold bind at 1. rewrite call_eq. fold save.
  destruct save as [[[]|e] d]; cbn [fst snd].
  - unfold OrganiserDetail.get_success_url, bind. simpl_world. reflexivity.
  - simpl_world. reflexivity.
Qed.

Lemma organiser_settings_save_outcome_witness :
  OrganiserDetail.post (H := Demo.demo) Demo.settings_request Demo.w0 =
  (Ok (Redirect "/orga/organiser/alpha/"),
   {| db := Demo.db0;
      messages := [success_message "Saved!"];
      log := [EvOrganiserFormSave 1] |}).
Proof.
  rewrite (organiser_settings_save_outcome (H := Demo.demo)
             Demo.settings_request Demo.w0).
  - reflexivity.
  - reflexivity.
  - reflexivity.
  - reflexivity.
Defined.

(** ** Foreign team pks in TeamDetail *)

(** A POST to the team page of a pk that names no team of the request's
    organiser fails with [Http404] and writes nothing: the team form is
    not built, and an invite form that validates is not saved. *)
Theorem team_post_foreign_pk_is_404 `{Collaborators} req w pk :
  kw_pk (req_kwargs req) = Some pk ->
  (forall t, In t (organiser_teams (req_organiser req) (db w)) ->
             team_pk t <> pk) ->
  (TeamDetail.invite_form_is_bound req = true ->
   TeamInviteForm_errors (req_POST req) (db w) = []) ->
  TeamDetail.post req w = (Raise http404, w).
Proof.
  intros Hk Hn Hinv.
  pose proof (get_team_foreign_pk req w pk Hk Hn) as Hteam.
  unfold TeamDetail.post.
  destruct (TeamDetail.invite_form_is_bound req) eqn:Hb.
  - unfold bind at 1. rewrite query_eq, (Hinv eq_refl). cbn [errors_empty].
    unfold TeamMixin.team, bind. rewrite Hteam. reflexivity.
  - unfold TeamDetail.super_post, ProcessFormView_post, TeamDetail.get_object,
      TeamMixin.get_object.
    rewrite Hk. unfold bind. rewrite Hteam. reflexivity.
Qed.

Lemma team_post_foreign_pk_is_404_witness :
  TeamDetail.post (H := Demo.demo)
    (Demo.request "/orga/organiser/alpha/teams/20/"
                  (Demo.kwargs (Some 20) None) (Some "invite")
                  [("invite-email", "fay@example.org")])
    Demo.w0
  = (Raise http404, Demo.w0).
Proof.
  apply (team_post_foreign_pk_is_404 (H := Demo.demo) _ Demo.w0 20).
  - reflexivity.
  - intros t Ht. vm_compute in Ht. destruct Ht as [<-|[]]. discriminate.
  - intros _. reflexivity.
Defined.
